(** * mock-oidc: the request handlers of [handlers.go]

    A shallow embedding of the HTTP handlers of the mock OpenID Connect
    provider (Authorize, Token, Userinfo, Discovery, JWKS) together with
    their validator and response helpers, and the properties of the
    protocol state machine proved about them.

    The handlers are written in explicit state-passing style: a handler
    receives the server [MockOIDC], the [ResponseWriter] and the
    [Request], and returns the server and the writer as it leaves them. *)

From Stdlib Require Import ZArith Lia String Ascii List Bool.
From Stdlib Require Import Floats.SpecFloat.
From stdpp Require Import gmap strings list fin_maps.

Local Open Scope string_scope.
Local Open Scope Z_scope.

(** ** Go values used by the handlers *)

(** A call that returns [(T, error)]. *)
Inductive Result (A : Type) : Type :=
| Ok (a : A)
| Err (msg : string).
Arguments Ok {A} a.
Arguments Err {A} msg.

(** [url.Values] and [http.Header]: a map from a key to its values;
    [Get] is the first value, or the empty string. *)
Abbreviation Values := (gmap string (list string)).

Definition Get (v : Values) (key : string) : string :=
  match v !! key with
  | Some (x :: _) => x
  | _ => ""
  end.

(** [strings.Split(s, " ")]: the substrings between single spaces; a
    string without a space (the empty one too) is one element. *)
Fixpoint Split (s : string) : list string :=
  match s with
  | EmptyString => [EmptyString]
  | String c rest =>
      if Ascii.eqb c " "%char then EmptyString :: Split rest
      else match Split rest with
           | w :: ws => String c w :: ws
           | [] => [String c EmptyString]
           end
  end.

(** The text before and after the first [sep], if there is one. *)
Fixpoint cutAt (sep : ascii) (s : string) : option (string * string) :=
  match s with
  | EmptyString => None
  | String c rest =>
      if Ascii.eqb c sep then Some (EmptyString, rest)
      else match cutAt sep rest with
           | Some (a, b) => Some (String c a, b)
           | None => None
           end
  end.

(** [strings.SplitN(s, " ", 2)]. *)
Definition SplitN2 (s : string) : list string :=
  match cutAt " "%char s with
  | Some (a, b) => [a; b]
  | None => [s]
  end.

(** ** [crypto/subtle] *)

(** The bytes of a Go string. *)
Definition bytes (s : string) : list Z :=
  map (fun c => Z.of_N (N_of_ascii c)) (list_ascii_of_string s).

(** [subtle.ConstantTimeByteEq(x, y)]: [int((uint32(x^y) - 1) >> 31)]. *)
Definition ConstantTimeByteEq (x y : Z) : Z :=
  Z.shiftr ((Z.lxor x y - 1) mod 2 ^ 32) 31.

(** The loop [v |= x[i] ^ y[i]] over two slices. *)
Fixpoint orXor (v : Z) (x y : list Z) : Z :=
  match x, y with
  | a :: x', b :: y' => orXor (Z.lor v (Z.lxor a b)) x' y'
  | _, _ => v
  end.

(** [subtle.ConstantTimeCompare(x, y)]: 1 when the slices are equal, 0
    otherwise; slices of different lengths give 0 at once. *)
Definition ConstantTimeCompare (x y : list Z) : Z :=
  if negb (Nat.eqb (length x) (length y)) then 0
  else ConstantTimeByteEq (orXor 0 x y) 0.

(** ** Constants of the package *)

Definition InvalidRequest := "invalid_request".
Definition InvalidClient := "invalid_client".
Definition InvalidGrant := "invalid_grant".
Definition UnsupportedGrantType := "unsupported_grant_type".
Definition InvalidScope := "invalid_scope".

Definition AuthorizationEndpoint := "/oidc/authorize".
Definition TokenEndpoint := "/oidc/token".
Definition UserinfoEndpoint := "/oidc/userinfo".
Definition JWKSEndpoint := "/oidc/.well-known/jwks.json".

Definition applicationJSON := "application/json".
Definition openidScope := "openid".

Definition GrantTypesSupported := ["authorization_code"; "refresh_token"].
Definition ResponseTypesSupported := ["code"].
Definition SubjectTypesSupported := ["public"].
Definition IDTokenSigningAlgValuesSupported := ["RS256"].
Definition ScopesSupported := ["openid"; "email"; "groups"; "profile"].
Definition TokenEndpointAuthMethodsSupported :=
  ["client_secret_basic"; "client_secret_post"].
Definition ClaimsSupported :=
  ["sub"; "email"; "email_verified"; "preferred_username"; "phone_number";
   "address"; "groups"; "iss"; "aud"].

Definition StatusOK : Z := 200.
Definition StatusFound : Z := 302.
Definition StatusBadRequest : Z := 400.
Definition StatusUnauthorized : Z := 401.
Definition StatusInternalServerError : Z := 500.

(** ** Requests and responses *)

Record Request := {
  Method : string;
  Header : Values;
  Form : Values;
  (** what [req.ParseForm()] returns *)
  ParseForm : option string
}.

Record tokenResponse := {
  AccessToken : string;
  RefreshToken : string;
  IDToken : string;
  TokenType : string;
  ExpiresIn : Z
}.

Record discoveryResponse := {
  dIssuer : string;
  dAuthorizationEndpoint : string;
  dTokenEndpoint : string;
  dJWKSUri : string;
  dUserinfoEndpoint : string;
  dGrantTypesSupported : list string;
  dResponseTypesSupported : list string;
  dSubjectTypesSupported : list string;
  dIDTokenSigningAlgValuesSupported : list string;
  dScopesSupported : list string;
  dTokenEndpointAuthMethodsSupported : list string;
  dClaimsSupported : list string
}.

(** What is written to the body, before its encoding: the value handed
    to [json.Marshal], bytes a collaborator produced, or the short HTML
    note of a redirect. *)
Inductive Payload :=
| ErrorJSON (error description : string)
| TokenJSON (tr : tokenResponse)
| DiscoveryJSON (d : discoveryResponse)
| RawJSON (data : string)
| RedirectHTML (url : string).

(** An [http.ResponseWriter]: the header map the handler edits, the
    status line once written (with the headers as they were then: later
    edits do not reach the client), and the body written so far. A
    write succeeds (where it fails the source panics). *)
Record ResponseWriter := {
  RwHeader : gmap string string;
  Sent : option (Z * gmap string string);
  Body : list Payload
}.

Definition freshWriter : ResponseWriter :=
  {| RwHeader := ∅; Sent := None; Body := [] |}.

Definition HeaderSet (k v : string) (rw : ResponseWriter) : ResponseWriter :=
  {| RwHeader := <[k := v]> (RwHeader rw); Sent := Sent rw; Body := Body rw |}.

Definition WriteHeader (statusCode : Z) (rw : ResponseWriter) : ResponseWriter :=
  match Sent rw with
  | Some _ => rw
  | None => {| RwHeader := RwHeader rw;
               Sent := Some (statusCode, RwHeader rw);
               Body := Body rw |}
  end.

Definition Write (p : Payload) (rw : ResponseWriter) : ResponseWriter :=
  let rw := WriteHeader StatusOK rw in
  {| RwHeader := RwHeader rw; Sent := Sent rw; Body := Body rw ++ [p] |}.

Definition noCache (rw : ResponseWriter) : ResponseWriter :=
  let rw := HeaderSet "Cache-Control" "no-cache, no-store, must-revalidate, max-age=0" rw in
  HeaderSet "Pragma" "no-cache" rw.

(** [errorResponse]. Marshalling a [map[string]string] does not fail,
    so the [http.Error] branch of the source is never taken. *)
Definition errorResponse (rw : ResponseWriter) (error description : string)
    (statusCode : Z) : ResponseWriter :=
  let rw := noCache rw in
  let rw := HeaderSet "Content-Type" applicationJSON rw in
  let rw := WriteHeader statusCode rw in
  Write (ErrorJSON error description) rw.

Definition internalServerError (rw : ResponseWriter) (errorMsg : string) : ResponseWriter :=
  errorResponse rw "internal_server_error" errorMsg StatusInternalServerError.

Definition jsonResponse (rw : ResponseWriter) (data : Payload) : ResponseWriter :=
  let rw := noCache rw in
  let rw := HeaderSet "Content-Type" applicationJSON rw in
  let rw := WriteHeader StatusOK rw in
  Write data rw.

(** ** Validator primitives *)

Fixpoint assertPresence (params : list string) (rw : ResponseWriter) (req : Request)
    : bool * ResponseWriter :=
  match params with
  | [] => (true, rw)
  | param :: rest =>
      if negb (String.eqb (Get (Form req) param) "") then assertPresence rest rw req
      else (false,
            errorResponse rw InvalidRequest
              ("The request is missing the required parameter: " +:+ param)
              StatusBadRequest)
  end.

Definition assertEqual (param value errorType errorMsg : string)
    (rw : ResponseWriter) (req : Request) : bool * ResponseWriter :=
  let formValue := Get (Form req) param in
  if Z.eqb (ConstantTimeCompare (bytes value) (bytes formValue)) 0 then
    (false,
     errorResponse rw errorType (errorMsg +:+ ": " +:+ formValue) StatusUnauthorized)
  else (true, rw).

(** The loop of [validateScope] over the requested scopes. *)
Fixpoint checkScopes (allowed : gset string) (scopes : list string)
    (rw : ResponseWriter) : bool * ResponseWriter :=
  match scopes with
  | [] => (true, rw)
  | scope :: rest =>
      if negb (bool_decide (scope ∈ allowed)) then
        (false,
         errorResponse rw InvalidScope ("Unsupported scope: " +:+ scope) StatusBadRequest)
      else checkScopes allowed rest rw
  end.

Definition validateScope (rw : ResponseWriter) (req : Request) : bool * ResponseWriter :=
  let allowed : gset string := list_to_set ScopesSupported in
  let scopes := Split (Get (Form req) "scope") in
  checkScopes allowed scopes rw.

(** ** Signed tokens *)

(** A value of a [jwt.MapClaims] entry ([interface{}]): JSON numbers
    are [float64]. *)
Inductive ClaimValue :=
| VFloat64 (f : spec_float)
| VString (s : string)
| VBool (b : bool)
| VNil
| VOther.

(** [token.Claims]: a [jwt.MapClaims], or claims of another type. *)
Inductive Claims :=
| MapClaims (c : gmap string ClaimValue)
| OtherClaims.

Record JwtToken := {
  Raw : string;
  TokenClaims : Claims
}.

Definition minInt64 : Z := - 2 ^ 63.
Definition maxInt64 : Z := 2 ^ 63 - 1.

(** The integer part of a finite float (rounding towards zero). *)
Definition truncate (f : spec_float) : option Z :=
  match f with
  | S754_zero _ => Some 0
  | S754_finite sgn mnt e =>
      let mag := if 0 <=? e then Z.pos mnt * 2 ^ e else Z.pos mnt / 2 ^ (- e) in
      Some (if sgn then - mag else mag)
  | _ => None
  end.

(** The tokens a successful [setTokens] has signed. *)
Inductive Mint := MintAccessToken | MintIDToken | MintRefreshToken.

(** ** Collaborators

    The session store, the key pair, the user queue, the clock and the
    URL and HTTP libraries are not part of [handlers.go]; what the
    handlers call of them is an interface, first its types and below
    its operations. *)
Class CollaboratorTypes := {
  User : Type;
  UserQueue : Type;
  Keypair : Type;
  Config : Type;
  Time : Type;
  URL : Type
}.

Section Data.

Context {T : CollaboratorTypes}.

(** A [Session], as the handlers use it. *)
Record Session := {
  SessionID : string;
  Scopes : list string;
  OIDCNonce : string;
  SessionUser : User;
  Granted : bool
}.

(** [session.Granted = true]. *)
Definition grant (s : Session) : Session :=
  {| SessionID := SessionID s; Scopes := Scopes s; OIDCNonce := OIDCNonce s;
     SessionUser := SessionUser s; Granted := true |}.

(** Modelled from the spec: the Session Store, whose code is not in
    [handlers.go] (create session, fetch by id, fetch by token). It
    owns the sessions and hands out pointers to them: it is a map from
    the session identifier, which doubles as the authorization code, to
    the session object, and a write through the pointer that a fetch
    returned is an update of the map at that identifier. *)
Definition GetSessionByID (store : gmap string Session) (id : string) : Result Session :=
  match store !! id with
  | Some s => Ok s
  | None => Err "session not found"
  end.

(** The server: its configuration and the collaborators it holds. *)
Record MockOIDC := {
  ClientID : string;
  ClientSecret : string;
  AccessTTL : Z;
  SessionStore : gmap string Session;
  Users : UserQueue;
  Keys : Keypair;
  (** the reading of the injected clock, [m.Now()] *)
  Now : Time
}.

Definition withStore (store : gmap string Session) (m : MockOIDC) : MockOIDC :=
  {| ClientID := ClientID m; ClientSecret := ClientSecret m; AccessTTL := AccessTTL m;
     SessionStore := store; Users := Users m; Keys := Keys m; Now := Now m |}.

Definition withUsers (q : UserQueue) (m : MockOIDC) : MockOIDC :=
  {| ClientID := ClientID m; ClientSecret := ClientSecret m; AccessTTL := AccessTTL m;
     SessionStore := SessionStore m; Users := q; Keys := Keys m; Now := Now m |}.

Definition withNow (t : Time) (m : MockOIDC) : MockOIDC :=
  {| ClientID := ClientID m; ClientSecret := ClientSecret m; AccessTTL := AccessTTL m;
     SessionStore := SessionStore m; Users := Users m; Keys := Keys m; Now := t |}.

End Data.

Class Collaborators (T : CollaboratorTypes) := {
  (** [time.Time.Unix()] *)
  Unix : Time -> Z;
  (** [int64(f)] for a float whose integer part is not an [int64], or
      that has none: the result depends on the platform *)
  int64Overflow : spec_float -> Z;
  (** [SessionStore.GetSessionByToken]: a read of the store *)
  GetSessionByToken : gmap string Session -> JwtToken -> Result Session;
  (** [SessionStore.NewSession(scope, nonce, user)]: the new session and
      the store that holds it *)
  NewSession :
    gmap string Session -> string -> string -> User -> Result (Session * gmap string Session);
  (** [UserQueue.Pop()] *)
  Pop : UserQueue -> User * UserQueue;
  (** [User.Userinfo(scopes)] *)
  UserUserinfo : User -> list string -> Result string;
  (** [Keypair.VerifyJWT] and [Keypair.JWKS] *)
  VerifyJWT : Keypair -> string -> Result JwtToken;
  KeypairJWKS : Keypair -> Result string;
  (** [Session.AccessToken], [Session.IDToken], [Session.RefreshToken] *)
  SessionAccessToken : Session -> Config -> Keypair -> Time -> Result string;
  SessionIDToken : Session -> Config -> Keypair -> Time -> Result string;
  SessionRefreshToken : Session -> Config -> Keypair -> Time -> Result string;
  (** [url.Parse], and the parsed URL printed again once [code] and
      [state] are set in its query *)
  urlParse : string -> Result URL;
  withCodeAndState : URL -> string -> string -> string;
  (** the [Location] header [http.Redirect] derives from its target *)
  location : Request -> string -> string;
  (** [m.Config()] and [m.Issuer()] *)
  ConfigOf : MockOIDC -> Config;
  Issuer : MockOIDC -> string
}.

Section Handlers.

Context {T : CollaboratorTypes} {C : Collaborators T}.

(** [int64(f)]. *)
Definition int64 (f : spec_float) : Z :=
  match truncate f with
  | Some v => if (minInt64 <=? v) && (v <=? maxInt64) then v else int64Overflow f
  | None => int64Overflow f
  end.

(** [http.Redirect(rw, req, url, code)]: sets [Location], and for a
    GET or HEAD request without a content type [Content-Type]; writes
    the status; a GET request gets a short HTML body. *)
Definition Redirect (rw : ResponseWriter) (req : Request) (url : string) (code : Z)
    : ResponseWriter :=
  let hadCT := bool_decide (is_Some (RwHeader rw !! "Content-Type")) in
  let rw := HeaderSet "Location" (location req url) rw in
  let rw :=
    if negb hadCT && (String.eqb (Method req) "GET" || String.eqb (Method req) "HEAD")
    then HeaderSet "Content-Type" "text/html; charset=utf-8" rw else rw in
  let rw := WriteHeader code rw in
  if negb hadCT && String.eqb (Method req) "GET"
  then Write (RedirectHTML url) rw else rw.

(** *** Bearer authorizer *)

Definition authorizeToken (m : MockOIDC) (t : string) (rw : ResponseWriter)
    : option JwtToken * ResponseWriter :=
  match VerifyJWT (Keys m) t with
  | Err err =>
      (None, errorResponse rw InvalidRequest ("Invalid token: " +:+ err) StatusUnauthorized)
  | Ok token =>
      match TokenClaims token with
      | OtherClaims => (None, internalServerError rw "Unable to extract token claims")
      | MapClaims claims =>
          match claims !! "exp" with
          | Some (VFloat64 exp) =>
              if Unix (Now m) >? int64 exp then
                (None,
                 errorResponse rw InvalidRequest "The token is expired" StatusUnauthorized)
              else (Some token, rw)
          | _ => (None, internalServerError rw "Unable to extract token expiration")
          end
      end
  end.

Definition authorizeBearer (m : MockOIDC) (rw : ResponseWriter) (req : Request)
    : option JwtToken * ResponseWriter :=
  let header := Get (Header req) "Authorization" in
  match SplitN2 header with
  | [scheme; t] =>
      if negb (String.eqb scheme "Bearer") then
        (None,
         errorResponse rw InvalidRequest "Invalid authorization header" StatusUnauthorized)
      else authorizeToken m t rw
  | _ =>
      (None,
       errorResponse rw InvalidRequest "Invalid authorization header" StatusUnauthorized)
  end.

(** *** Authorize *)

Definition Authorize (m : MockOIDC) (rw : ResponseWriter) (req : Request)
    : MockOIDC * ResponseWriter :=
  match ParseForm req with
  | Some err => (m, internalServerError rw err)
  | None =>
  let '(valid, rw) :=
    assertPresence ["scope"; "state"; "client_id"; "response_type"; "redirect_uri"] rw req in
  if negb valid then (m, rw) else
  let '(validScope, rw) := validateScope rw req in
  if negb validScope then (m, rw) else
  let '(validClient, rw) :=
    assertEqual "client_id" (ClientID m) InvalidClient "Invalid client id" rw req in
  if negb validClient then (m, rw) else
  let '(validType, rw) :=
    assertEqual "response_type" "code" UnsupportedGrantType "Invalid response type" rw req in
  if negb validType then (m, rw) else
  let '(user, queue) := Pop (Users m) in
  let m := withUsers queue m in
  match NewSession (SessionStore m) (Get (Form req) "scope") (Get (Form req) "nonce") user with
  | Err err => (m, internalServerError rw err)
  | Ok (session, store) =>
      let m := withStore store m in
      match urlParse (Get (Form req) "redirect_uri") with
      | Err err => (m, internalServerError rw err)
      | Ok redirectURI =>
          let target :=
            withCodeAndState redirectURI (SessionID session) (Get (Form req) "state") in
          (m, Redirect rw req target StatusFound)
      end
  end
  end.

(** *** Token *)

Definition validateTokenParams (m : MockOIDC) (rw : ResponseWriter) (req : Request)
    : bool * ResponseWriter :=
  let '(present, rw) :=
    assertPresence ["client_id"; "client_secret"; "grant_type"] rw req in
  if negb present then (false, rw) else
  let '(equal, rw) :=
    assertEqual "client_id" (ClientID m) InvalidClient "Invalid client id" rw req in
  if negb equal then (false, rw) else
  let '(equal, rw) :=
    assertEqual "client_secret" (ClientSecret m) InvalidClient "Invalid client secret" rw req in
  if negb equal then (false, rw) else (true, rw).

Definition validateCodeGrant (m : MockOIDC) (rw : ResponseWriter) (req : Request)
    : MockOIDC * ResponseWriter * option Session :=
  let '(present, rw) := assertPresence ["code"] rw req in
  if negb present then (m, rw, None) else
  let '(equal, rw) :=
    assertEqual "grant_type" "authorization_code" UnsupportedGrantType
      "Invalid grant type" rw req in
  if negb equal then (m, rw, None) else
  let code := Get (Form req) "code" in
  let invalid :=
    (m, errorResponse rw InvalidGrant ("Invalid code: " +:+ code) StatusUnauthorized, None) in
  match GetSessionByID (SessionStore m) code with
  | Err _ => invalid
  | Ok session =>
      if Granted session then invalid
      else
        (* session.Granted = true, on the object the store holds *)
        let session := grant session in
        (withStore (<[code := session]> (SessionStore m)) m, rw, Some session)
  end.

Definition validateRefreshGrant (m : MockOIDC) (rw : ResponseWriter) (req : Request)
    : MockOIDC * ResponseWriter * option Session :=
  let '(present, rw) := assertPresence ["refresh_token"] rw req in
  if negb present then (m, rw, None) else
  let '(equal, rw) :=
    assertEqual "grant_type" "refresh_token" UnsupportedGrantType
      "Invalid grant type" rw req in
  if negb equal then (m, rw, None) else
  let refreshToken := Get (Form req) "refresh_token" in
  match authorizeToken m refreshToken rw with
  | (None, rw) => (m, rw, None)
  | (Some token, rw) =>
      match GetSessionByToken (SessionStore m) token with
      | Err _ =>
          (m, errorResponse rw InvalidGrant "Invalid refresh token" StatusUnauthorized, None)
      | Ok session => (m, rw, Some session)
      end
  end.

(** [setTokens]: the filled response and the tokens signed for it, or
    the first signing error. *)
Definition setTokens (m : MockOIDC) (tr : tokenResponse) (s : Session)
    (grantType : string) : Result (tokenResponse * list Mint) :=
  match SessionAccessToken s (ConfigOf m) (Keys m) (Now m) with
  | Err err => Err err
  | Ok accessToken =>
      let tr := {| AccessToken := accessToken; RefreshToken := RefreshToken tr;
                   IDToken := IDToken tr; TokenType := TokenType tr;
                   ExpiresIn := ExpiresIn tr |} in
      let minted := [MintAccessToken] in
      let withID :=
        match Scopes s with
        | first :: _ =>
            if String.eqb first openidScope then
              match SessionIDToken s (ConfigOf m) (Keys m) (Now m) with
              | Err err => Err err
              | Ok idToken =>
                  Ok ({| AccessToken := AccessToken tr; RefreshToken := RefreshToken tr;
                         IDToken := idToken; TokenType := TokenType tr;
                         ExpiresIn := ExpiresIn tr |}, (minted ++ [MintIDToken])%list)
              end
            else Ok (tr, minted)
        | [] => Ok (tr, minted)
        end in
      match withID with
      | Err err => Err err
      | Ok (tr, minted) =>
          if negb (String.eqb grantType "refresh_token") then
            match SessionRefreshToken s (ConfigOf m) (Keys m) (Now m) with
            | Err err => Err err
            | Ok refreshToken =>
                Ok ({| AccessToken := AccessToken tr; RefreshToken := refreshToken;
                       IDToken := IDToken tr; TokenType := TokenType tr;
                       ExpiresIn := ExpiresIn tr |}, (minted ++ [MintRefreshToken])%list)
            end
          else Ok (tr, minted)
      end
  end.

(** The [tokenResponse] that [Token] hands to [setTokens]. *)
Definition newTokenResponse (m : MockOIDC) (req : Request) : tokenResponse :=
  {| AccessToken := ""; RefreshToken := Get (Form req) "refresh_token"; IDToken := "";
     TokenType := "bearer"; ExpiresIn := AccessTTL m |}.

(** The end of [Token], once a grant has been validated. Marshalling
    a [tokenResponse] does not fail. *)
Definition respondTokens (m : MockOIDC) (rw : ResponseWriter) (req : Request)
    (session : Session) (grantType : string) : ResponseWriter :=
  match setTokens m (newTokenResponse m req) session grantType with
  | Err err => internalServerError rw err
  | Ok (tr, _) => jsonResponse (noCache rw) (TokenJSON tr)
  end.

Definition Token (m : MockOIDC) (rw : ResponseWriter) (req : Request)
    : MockOIDC * ResponseWriter :=
  match ParseForm req with
  | Some err => (m, internalServerError rw err)
  | None =>
  let '(valid, rw) := validateTokenParams m rw req in
  if negb valid then (m, rw) else
  let grantType := Get (Form req) "grant_type" in
  if String.eqb grantType "authorization_code" then
    match validateCodeGrant m rw req with
    | (m, rw, None) => (m, rw)
    | (m, rw, Some session) => (m, respondTokens m rw req session grantType)
    end
  else if String.eqb grantType "refresh_token" then
    match validateRefreshGrant m rw req with
    | (m, rw, None) => (m, rw)
    | (m, rw, Some session) => (m, respondTokens m rw req session grantType)
    end
  else
    (m, errorResponse rw InvalidRequest ("Invalid grant type: " +:+ grantType)
          StatusBadRequest)
  end.

(** *** Userinfo, Discovery, JWKS *)

Definition Userinfo (m : MockOIDC) (rw : ResponseWriter) (req : Request)
    : MockOIDC * ResponseWriter :=
  match authorizeBearer m rw req with
  | (None, rw) => (m, rw)
  | (Some token, rw) =>
      match GetSessionByToken (SessionStore m) token with
      | Err err => (m, internalServerError rw err)
      | Ok session =>
          match UserUserinfo (SessionUser session) (Scopes session) with
          | Err err => (m, internalServerError rw err)
          | Ok resp => (m, jsonResponse rw (RawJSON resp))
          end
      end
  end.

Definition Discovery (m : MockOIDC) (rw : ResponseWriter) (req : Request)
    : MockOIDC * ResponseWriter :=
  let discovery :=
    {| dIssuer := Issuer m;
       dAuthorizationEndpoint := Issuer m +:+ AuthorizationEndpoint;
       dTokenEndpoint := Issuer m +:+ TokenEndpoint;
       dJWKSUri := Issuer m +:+ JWKSEndpoint;
       dUserinfoEndpoint := Issuer m +:+ UserinfoEndpoint;
       dGrantTypesSupported := GrantTypesSupported;
       dResponseTypesSupported := ResponseTypesSupported;
       dSubjectTypesSupported := SubjectTypesSupported;
       dIDTokenSigningAlgValuesSupported := IDTokenSigningAlgValuesSupported;
       dScopesSupported := ScopesSupported;
       dTokenEndpointAuthMethodsSupported := TokenEndpointAuthMethodsSupported;
       dClaimsSupported := ClaimsSupported |} in
  (m, jsonResponse rw (DiscoveryJSON discovery)).

Definition JWKS (m : MockOIDC) (rw : ResponseWriter) (req : Request)
    : MockOIDC * ResponseWriter :=
  match KeypairJWKS (Keys m) with
  | Err err => (m, internalServerError rw err)
  | Ok jwks => (m, jsonResponse rw (RawJSON jwks))
  end.

End Handlers.


(** ** What a client observes, and the requests the properties speak of *)

(** The status line on the wire. *)
Definition status (rw : ResponseWriter) : option Z := fst <$> Sent rw.

(** A header as it was sent with the status line. *)
Definition sentHeader (rw : ResponseWriter) (k : string) : option string :=
  match Sent rw with
  | Some (_, h) => h !! k
  | None => None
  end.

(** The response carries the no-cache headers. *)
Definition sentNoCache (rw : ResponseWriter) : Prop :=
  sentHeader rw "Cache-Control" = Some "no-cache, no-store, must-revalidate, max-age=0"
  /\ sentHeader rw "Pragma" = Some "no-cache".

(** [rw'] is [rw] after an error response, of a status that is neither
    200 nor 302. *)
Definition errorReply (rw rw' : ResponseWriter) : Prop :=
  exists error description code,
    rw' = errorResponse rw error description code
    /\ code <> StatusOK /\ code <> StatusFound.

(** A float that is zero or finite and not negative. *)
Definition finiteNonneg (f : spec_float) : Prop :=
  match f with
  | S754_zero _ | S754_finite false _ _ => True
  | _ => False
  end.

(** The value of such a float lies before the integer [n]. *)
Definition before (f : spec_float) (n : Z) : Prop :=
  match f with
  | S754_zero _ => 0 < n
  | S754_finite _ mnt e =>
      if 0 <=? e then Z.pos mnt * 2 ^ e < n else Z.pos mnt < n * 2 ^ (- e)
  | _ => False
  end.

(** The form value [param] is not empty. *)
Definition present (req : Request) (param : string) : Prop :=
  Get (Form req) param <> "".

(** [scope] is one of [ScopesSupported]. *)
Definition supported (scope : string) : Prop := In scope ScopesSupported.

(** The first element of the scope sequence is [openid]. *)
Definition openidFirst (scopes : list string) : Prop :=
  exists rest, scopes = "openid" :: rest.

Section Requests.

Context {T : CollaboratorTypes} {C : Collaborators T}.

(** The form carries the configured client id and secret, neither of
    them empty. *)
Definition clientCredentials (m : MockOIDC) (req : Request) : Prop :=
  Get (Form req) "client_id" = ClientID m /\ ClientID m <> ""
  /\ Get (Form req) "client_secret" = ClientSecret m /\ ClientSecret m <> "".

(** The form parses and carries the client credentials: the request
    passes [validateTokenParams] when it also names a grant type. *)
Definition clientAuthenticated (m : MockOIDC) (req : Request) : Prop :=
  ParseForm req = None /\ clientCredentials m req.

(** An authenticated request to redeem the authorization code [code]. *)
Definition redeems (m : MockOIDC) (req : Request) (code : string) : Prop :=
  clientAuthenticated m req
  /\ Get (Form req) "grant_type" = "authorization_code"
  /\ Get (Form req) "code" = code /\ code <> "".

(** An authenticated refresh-token grant that submits [t]. *)
Definition refreshes (m : MockOIDC) (req : Request) (t : string) : Prop :=
  clientAuthenticated m req
  /\ Get (Form req) "grant_type" = "refresh_token"
  /\ Get (Form req) "refresh_token" = t /\ t <> "".

(** [t] verifies as [token], whose [exp] claim is a number not before
    the clock's second. *)
Definition unexpired (m : MockOIDC) (t : string) (token : JwtToken) : Prop :=
  VerifyJWT (Keys m) t = Ok token
  /\ exists claims exp,
       TokenClaims token = MapClaims claims
       /\ claims !! "exp" = Some (VFloat64 exp)
       /\ Unix (Now m) <= int64 exp.

(** The server after a sequence of Token requests, each handled at its
    own reading of the clock. *)
Fixpoint TokenRun (reqs : list (Time * Request)) (m : MockOIDC) : MockOIDC :=
  match reqs with
  | [] => m
  | (t, req) :: rest => TokenRun rest (fst (Token (withNow t m) freshWriter req))
  end.

(** What a Token request comes to: an error response from a server
    left as it was; a code grant, which grants the session of the code
    and then answers with its tokens or a signing error; or a refresh
    grant, which answers with the tokens of the session bound to the
    submitted token, or a signing error, from a server left as it was. *)
Inductive TokenOutcome (m : MockOIDC) (rw : ResponseWriter) (req : Request)
    : MockOIDC -> ResponseWriter -> Prop :=
| TokenRejected rw' :
    errorReply rw rw' -> TokenOutcome m rw req m rw'
| TokenCodeGrant s :
    clientCredentials m req ->
    Get (Form req) "grant_type" = "authorization_code" ->
    SessionStore m !! Get (Form req) "code" = Some s -> Granted s = false ->
    let m' := withStore (<[Get (Form req) "code" := grant s]> (SessionStore m)) m in
    TokenOutcome m rw req m' (respondTokens m' rw req (grant s) "authorization_code")
| TokenRefreshGrant token s :
    clientCredentials m req ->
    Get (Form req) "grant_type" = "refresh_token" ->
    unexpired m (Get (Form req) "refresh_token") token ->
    GetSessionByToken (SessionStore m) token = Ok s ->
    TokenOutcome m rw req m (respondTokens m rw req s "refresh_token").

(** What an Authorize request comes to: a rejection before anything is
    touched; once the request is valid, the next user leaves the queue
    and the store creates the session, after which the answer is an
    internal error or the redirect. *)
Inductive AuthorizeOutcome (m : MockOIDC) (rw : ResponseWriter) (req : Request)
    : MockOIDC -> ResponseWriter -> Prop :=
| AuthorizeRejected rw' :
    errorReply rw rw' -> AuthorizeOutcome m rw req m rw'
| AuthorizeNoSession user queue rw' :
    Pop (Users m) = (user, queue) ->
    errorReply rw rw' -> AuthorizeOutcome m rw req (withUsers queue m) rw'
| AuthorizeBadRedirect user queue s store rw' :
    Pop (Users m) = (user, queue) ->
    NewSession (SessionStore m) (Get (Form req) "scope") (Get (Form req) "nonce") user
    = Ok (s, store) ->
    errorReply rw rw' ->
    AuthorizeOutcome m rw req (withStore store (withUsers queue m)) rw'
| AuthorizeRedirected user queue s store (target : string) :
    Pop (Users m) = (user, queue) ->
    NewSession (SessionStore m) (Get (Form req) "scope") (Get (Form req) "nonce") user
    = Ok (s, store) ->
    AuthorizeOutcome m rw req (withStore store (withUsers queue m))
      (Redirect rw req target StatusFound).

End Requests.

(** ** A concrete server

    A small instance of the collaborators, on which the handlers run:
    tokens are the text [kind.sessionID], users are names, the clock
    counts seconds. *)
Module Demo.

#[export] Instance types : CollaboratorTypes := {|
  User := string;
  UserQueue := list string;
  Keypair := unit;
  Config := unit;
  Time := Z;
  URL := string
|}.

(** 1600, 2000 and 50 as binary64 floats. *)
Definition f1600 : spec_float := S754_finite false 7036874417766400 (- 42).
Definition f2000 : spec_float := S754_finite false 8796093022208000 (- 42).
Definition f50 : spec_float := S754_finite false 7036874417766400 (- 47).

Definition claimsOf (exp : option ClaimValue) (id : string) : JwtToken :=
  let c : gmap string ClaimValue := {[ "jti" := VString id ]} in
  {| Raw := id;
     TokenClaims := MapClaims (match exp with Some v => <["exp" := v]> c | None => c end) |}.

Definition verify (kp : unit) (t : string) : Result JwtToken :=
  match cutAt "."%char t with
  | Some (kind, id) =>
      if String.eqb kind "access" then Ok (claimsOf (Some (VFloat64 f1600)) id)
      else if String.eqb kind "refresh" then Ok (claimsOf (Some (VFloat64 f2000)) id)
      else if String.eqb kind "old" then Ok (claimsOf (Some (VFloat64 f50)) id)
      else if String.eqb kind "noexp" then Ok (claimsOf None id)
      else if String.eqb kind "strexp" then Ok (claimsOf (Some (VString "2000")) id)
      else if String.eqb kind "opaque" then Ok {| Raw := id; TokenClaims := OtherClaims |}
      else Err "signature is invalid"
  | None => Err "token contains an invalid number of segments"
  end.

Definition byToken (store : gmap string Session) (token : JwtToken) : Result Session :=
  match TokenClaims token with
  | MapClaims c =>
      match c !! "jti" with
      | Some (VString id) => GetSessionByID store id
      | _ => Err "invalid token"
      end
  | OtherClaims => Err "invalid token"
  end.

Definition newSession (store : gmap string Session) (scope nonce : string) (user : string)
    : Result (Session * gmap string Session) :=
  let id := "code-" +:+ user in
  let s := {| SessionID := id; Scopes := Split scope; OIDCNonce := nonce;
              SessionUser := user; Granted := false |} in
  Ok (s, <[id := s]> store).

Definition pop (q : list string) : string * list string :=
  match q with
  | u :: q' => (u, q')
  | [] => ("default", [])
  end.

Definition parseURL (s : string) : Result string :=
  if String.prefix ":" s then Err "missing protocol scheme" else Ok s.

Definition sign (kind : string) (s : Session) (c k : unit) (now : Z) : Result string :=
  Ok (kind +:+ "." +:+ SessionID s).

Definition target (u code state : string) : string :=
  u +:+ "?code=" +:+ code +:+ "&state=" +:+ state.

#[export] Instance collaborators : Collaborators types := {|
  Unix := id (A := Z);
  int64Overflow := fun _ => minInt64;
  GetSessionByToken := byToken;
  NewSession := newSession;
  Pop := pop;
  UserUserinfo := fun (u : string) _ => Ok u;
  VerifyJWT := verify;
  KeypairJWKS := fun _ : unit => Ok "jwks";
  SessionAccessToken := sign "access";
  SessionIDToken := sign "id";
  SessionRefreshToken := sign "refresh";
  urlParse := parseURL;
  withCodeAndState := target;
  location := fun _ url => url;
  ConfigOf := fun _ => tt;
  Issuer := fun _ => "http://127.0.0.1:8080/oidc"
|}.

Definition form (l : list (string * string)) : Values :=
  list_to_map (map (fun kv => (fst kv, [snd kv])) l).

Definition post (l : list (string * string)) : Request :=
  {| Method := "POST"; Header := ∅; Form := form l; ParseForm := None |}.

Definition get (l : list (string * string)) : Request :=
  {| Method := "GET"; Header := ∅; Form := form l; ParseForm := None |}.

Definition bearer (t : string) : Request :=
  {| Method := "GET"; Header := form [("Authorization", "Bearer " +:+ t)];
     Form := ∅; ParseForm := None |}.

Definition session (id : string) (scopes : list string) (granted : bool) : Session :=
  {| SessionID := id; Scopes := scopes; OIDCNonce := ""; SessionUser := "alice";
     Granted := granted |}.

(** A session that asked for [openid] first, and one that asked for it
    last; neither is granted. *)
Definition fresh : Session := session "c1" ["openid"; "profile"] false.

(** The server at time 1000, with the sessions [store]. *)
Definition server (store : gmap string Session) : MockOIDC :=
  {| ClientID := "cid"; ClientSecret := "secret"; AccessTTL := 600;
     SessionStore := store; Users := ["alice"]; Keys := tt; Now := 1000 |}.

(** What the client sees: the status, the [Cache-Control] header sent,
    and the body. *)
Definition seen (rw : ResponseWriter) : option (Z * option string * list Payload) :=
  match Sent rw with
  | Some (code, h) => Some (code, h !! "Cache-Control", Body rw)
  | None => None
  end.

Definition authorizeRequest (scope state : string) : Request :=
  get [("scope", scope); ("state", state); ("client_id", "cid");
       ("response_type", "code"); ("redirect_uri", "https://app/cb")].

Definition codeRequest (code : string) : Request :=
  post [("client_id", "cid"); ("client_secret", "secret");
        ("grant_type", "authorization_code"); ("code", code)].

Definition refreshRequest (t : string) : Request :=
  post [("client_id", "cid"); ("client_secret", "secret");
        ("grant_type", "refresh_token"); ("refresh_token", t)].

End Demo.

(** * Properties *)

(** ** Strings and bytes *)

Lemma byte_range (c : ascii) : 0 <= Z.of_N (N_of_ascii c) < 256.
Proof.
  pose proof (N_ascii_bounded c) as Hb. lia.
Qed.

Lemma bytes_range (s : string) : Forall (fun b => 0 <= b < 256) (bytes s).
Proof.
  unfold bytes. induction s as [|c s IH]; simpl; constructor; auto using byte_range.
Qed.

Lemma bytes_inj (a b : string) : bytes a = bytes b -> a = b.
Proof.
  revert b. induction a as [|c a IH]; intros [|d b] Heq; simpl in Heq; try discriminate.
  - reflexivity.
  - injection Heq as Hc Hrest.
    apply N2Z.inj in Hc.
    assert (c = d) as ->.
    { rewrite <- (ascii_N_embedding c), <- (ascii_N_embedding d). now rewrite Hc. }
    f_equal. now apply IH.
Qed.

Lemma lor_byte (a b : Z) : 0 <= a < 256 -> 0 <= b < 256 -> 0 <= Z.lor a b < 256.
Proof.
  intros Ha Hb. split; [apply Z.lor_nonneg; lia|].
  destruct (Z.eq_dec (Z.lor a b) 0) as [->|Hne]; [lia|].
  assert (0 < Z.lor a b) by (pose proof (proj2 (Z.lor_nonneg a b)); lia).
  change 256 with (2 ^ 8). apply Z.log2_lt_pow2; [assumption|].
  rewrite Z.log2_lor by lia.
  destruct (Z.eq_dec a 0) as [->|]; destruct (Z.eq_dec b 0) as [->|];
    try (change (Z.log2 0) with 0).
  - simpl. lia.
  - assert (Z.log2 b < 8) by (apply Z.log2_lt_pow2; simpl; lia).
    pose proof (Z.log2_nonneg b). lia.
  - assert (Z.log2 a < 8) by (apply Z.log2_lt_pow2; simpl; lia).
    pose proof (Z.log2_nonneg a). lia.
  - assert (Z.log2 a < 8) by (apply Z.log2_lt_pow2; simpl; lia).
    assert (Z.log2 b < 8) by (apply Z.log2_lt_pow2; simpl; lia). lia.
Qed.

Lemma lxor_byte (a b : Z) : 0 <= a < 256 -> 0 <= b < 256 -> 0 <= Z.lxor a b < 256.
Proof.
  intros Ha Hb. split; [apply Z.lxor_nonneg; lia|].
  destruct (Z.eq_dec (Z.lxor a b) 0) as [->|Hne]; [lia|].
  assert (0 < Z.lxor a b) by (pose proof (proj2 (Z.lxor_nonneg a b)); lia).
  change 256 with (2 ^ 8). apply Z.log2_lt_pow2; [assumption|].
  pose proof (Z.log2_lxor a b ltac:(lia) ltac:(lia)) as Hle.
  destruct (Z.eq_dec a 0) as [->|]; destruct (Z.eq_dec b 0) as [->|];
    try (change (Z.log2 0) with 0 in Hle).
  - simpl in Hne. lia.
  - assert (Z.log2 b < 8) by (apply Z.log2_lt_pow2; simpl; lia).
    pose proof (Z.log2_nonneg b). lia.
  - assert (Z.log2 a < 8) by (apply Z.log2_lt_pow2; simpl; lia).
    pose proof (Z.log2_nonneg a). lia.
  - assert (Z.log2 a < 8) by (apply Z.log2_lt_pow2; simpl; lia).
    assert (Z.log2 b < 8) by (apply Z.log2_lt_pow2; simpl; lia). lia.
Qed.

Lemma orXor_byte (x : list Z) : forall (y : list Z) (v : Z),
  0 <= v < 256 ->
  Forall (fun b => 0 <= b < 256) x -> Forall (fun b => 0 <= b < 256) y ->
  0 <= orXor v x y < 256.
Proof.
  induction x as [|a x IH]; intros [|b y] v Hv Hx Hy; simpl; try assumption.
  inversion Hx; inversion Hy; subst.
  apply IH; auto using lor_byte, lxor_byte.
Qed.

Lemma orXor_zero (x : list Z) : forall (y : list Z) (v : Z),
  length x = length y -> 0 <= v ->
  Forall (fun b => 0 <= b < 256) x -> Forall (fun b => 0 <= b < 256) y ->
  (orXor v x y = 0 <-> v = 0 /\ x = y).
Proof.
  induction x as [|a x IH]; intros [|b y] v Hlen Hv Hx Hy; simpl in *; try discriminate.
  - intuition.
  - inversion Hx; inversion Hy; subst.
    rewrite IH; auto.
    + rewrite Z.lor_eq_0_iff. split.
      * intros [[Hv0 Hxor] ->]. apply Z.lxor_eq in Hxor. now subst.
      * intros [Hv0 Heq]. injection Heq as -> ->. rewrite Z.lxor_nilpotent. auto.
    + apply Z.lor_nonneg. split; [lia|]. apply Z.lxor_nonneg. lia.
Qed.

Lemma ConstantTimeByteEq_zero (v : Z) :
  0 <= v < 256 -> ConstantTimeByteEq v 0 = (if Z.eqb v 0 then 1 else 0).
Proof.
  intros Hv. unfold ConstantTimeByteEq. rewrite Z.lxor_0_r.
  destruct (Z.eqb_spec v 0) as [->|Hne]; [reflexivity|].
  rewrite Z.mod_small by (simpl; lia).
  rewrite Z.shiftr_div_pow2 by lia. apply Z.div_small. simpl; lia.
Qed.

(** [ConstantTimeCompare] decides the equality of two strings. *)
Lemma ConstantTimeCompare_eq (a b : string) :
  ConstantTimeCompare (bytes a) (bytes b) = (if String.eqb a b then 1 else 0).
Proof.
  unfold ConstantTimeCompare.
  destruct (String.eqb_spec a b) as [->|Hne].
  - rewrite Nat.eqb_refl. simpl.
    rewrite ConstantTimeByteEq_zero by (apply orXor_byte; auto using bytes_range; lia).
    assert (orXor 0 (bytes b) (bytes b) = 0) as ->; [|reflexivity].
    apply orXor_zero; auto using bytes_range; lia.
  - destruct (Nat.eqb_spec (length (bytes a)) (length (bytes b))) as [Hlen|Hlen];
      [simpl|reflexivity].
    rewrite ConstantTimeByteEq_zero by (apply orXor_byte; auto using bytes_range; lia).
    destruct (Z.eqb_spec (orXor 0 (bytes a) (bytes b)) 0) as [Hz|]; [|reflexivity].
    apply orXor_zero in Hz; auto using bytes_range; try lia.
    destruct Hz as [_ Hz]. apply bytes_inj in Hz. contradiction.
Qed.

(** ** Responses *)

Lemma errorResponse_sent (rw : ResponseWriter) (error description : string) (code : Z) :
  Sent rw = None ->
  Sent (errorResponse rw error description code)
    = Some (code, RwHeader (HeaderSet "Content-Type" applicationJSON (noCache rw)))
  /\ Body (errorResponse rw error description code)
    = (Body rw ++ [ErrorJSON error description])%list.
Proof.
  intros Hs. unfold errorResponse, Write, WriteHeader. simpl. rewrite Hs. simpl. auto.
Qed.

Lemma jsonResponse_sent (rw : ResponseWriter) (data : Payload) :
  Sent rw = None ->
  Sent (jsonResponse rw data)
    = Some (StatusOK, RwHeader (HeaderSet "Content-Type" applicationJSON (noCache rw)))
  /\ Body (jsonResponse rw data) = (Body rw ++ [data])%list.
Proof.
  intros Hs. unfold jsonResponse, Write, WriteHeader. simpl. rewrite Hs. simpl. auto.
Qed.

Lemma noCache_sent (rw : ResponseWriter) : Sent (noCache rw) = Sent rw.
Proof. reflexivity. Qed.

Lemma errorResponse_status (rw : ResponseWriter) (error description : string) (code : Z) :
  Sent rw = None -> status (errorResponse rw error description code) = Some code.
Proof.
  intros Hs. unfold status. now rewrite (proj1 (errorResponse_sent rw _ _ _ Hs)).
Qed.

Lemma jsonResponse_status (rw : ResponseWriter) (data : Payload) :
  Sent rw = None -> status (jsonResponse rw data) = Some StatusOK.
Proof.
  intros Hs. unfold status. now rewrite (proj1 (jsonResponse_sent rw _ Hs)).
Qed.

Lemma errorResponse_noCache (rw : ResponseWriter) (error description : string) (code : Z) :
  Sent rw = None -> sentNoCache (errorResponse rw error description code).
Proof.
  intros Hs. unfold sentNoCache, sentHeader.
  rewrite (proj1 (errorResponse_sent rw _ _ _ Hs)). simpl.
  split; by simplify_map_eq.
Qed.

Lemma jsonResponse_noCache (rw : ResponseWriter) (data : Payload) :
  Sent rw = None -> sentNoCache (jsonResponse rw data).
Proof.
  intros Hs. unfold sentNoCache, sentHeader.
  rewrite (proj1 (jsonResponse_sent rw _ Hs)). simpl.
  split; by simplify_map_eq.
Qed.

(** ** Validator primitives *)

Lemma assertEqual_eq (param value errorType errorMsg : string)
    (rw : ResponseWriter) (req : Request) :
  assertEqual param value errorType errorMsg rw req
  = if String.eqb value (Get (Form req) param) then (true, rw)
    else (false,
          errorResponse rw errorType (errorMsg +:+ ": " +:+ Get (Form req) param)
            StatusUnauthorized).
Proof.
  unfold assertEqual. rewrite ConstantTimeCompare_eq.
  destruct (String.eqb value (Get (Form req) param)); reflexivity.
Qed.

Lemma assertEqual_match (param value errorType errorMsg : string)
    (rw : ResponseWriter) (req : Request) :
  Get (Form req) param = value ->
  assertEqual param value errorType errorMsg rw req = (true, rw).
Proof.
  intros <-. rewrite assertEqual_eq. now rewrite String.eqb_refl.
Qed.

Lemma assertEqual_mismatch (param value errorType errorMsg : string)
    (rw : ResponseWriter) (req : Request) :
  Get (Form req) param <> value ->
  assertEqual param value errorType errorMsg rw req
  = (false,
     errorResponse rw errorType (errorMsg +:+ ": " +:+ Get (Form req) param)
       StatusUnauthorized).
Proof.
  intros Hne. rewrite assertEqual_eq.
  destruct (String.eqb_spec value (Get (Form req) param)); congruence.
Qed.

Lemma assertPresence_present (params : list string) (rw : ResponseWriter) (req : Request) :
  Forall (present req) params -> assertPresence params rw req = (true, rw).
Proof.
  induction 1 as [|p ps Hp _ IH]; simpl; [reflexivity|].
  destruct (String.eqb_spec (Get (Form req) p) ""); [contradiction|]. exact IH.
Qed.

Lemma assertPresence_missing (pre : list string) (param : string) (post : list string)
    (rw : ResponseWriter) (req : Request) :
  Forall (present req) pre -> Get (Form req) param = "" ->
  assertPresence (pre ++ param :: post) rw req
  = (false,
     errorResponse rw InvalidRequest
       ("The request is missing the required parameter: " +:+ param) StatusBadRequest).
Proof.
  intros Hpre Hmiss. induction Hpre as [|p ps Hp _ IH]; simpl.
  - rewrite Hmiss. reflexivity.
  - destruct (String.eqb_spec (Get (Form req) p) ""); [contradiction|]. exact IH.
Qed.

Lemma allowed_supported (scope : string) :
  scope ∈ (list_to_set ScopesSupported : gset string) <-> supported scope.
Proof.
  rewrite elem_of_list_to_set, list_elem_of_In. reflexivity.
Qed.

Lemma checkScopes_allowed (allowed : gset string) (scopes : list string)
    (rw : ResponseWriter) :
  Forall (fun scope => scope ∈ allowed) scopes ->
  checkScopes allowed scopes rw = (true, rw).
Proof.
  induction 1 as [|sc scs Hs _ IH]; simpl; [reflexivity|].
  rewrite bool_decide_eq_true_2 by assumption. exact IH.
Qed.

Lemma checkScopes_first_bad (allowed : gset string) (pre : list string) (bad : string)
    (post : list string) (rw : ResponseWriter) :
  Forall (fun scope => scope ∈ allowed) pre -> bad ∉ allowed ->
  checkScopes allowed (pre ++ bad :: post) rw
  = (false,
     errorResponse rw InvalidScope ("Unsupported scope: " +:+ bad) StatusBadRequest).
Proof.
  intros Hpre Hbad. induction Hpre as [|sc scs Hs _ IH]; simpl.
  - rewrite bool_decide_eq_false_2 by assumption. reflexivity.
  - rewrite bool_decide_eq_true_2 by assumption. exact IH.
Qed.

Lemma validateScope_supported (rw : ResponseWriter) (req : Request) :
  Forall supported (Split (Get (Form req) "scope")) ->
  validateScope rw req = (true, rw).
Proof.
  intros Hall. unfold validateScope. apply checkScopes_allowed.
  eapply Forall_impl; [exact Hall|]. intros sc Hsc. now apply allowed_supported.
Qed.

Lemma validateScope_unsupported (pre : list string) (bad : string) (post : list string)
    (rw : ResponseWriter) (req : Request) :
  Split (Get (Form req) "scope") = (pre ++ bad :: post)%list ->
  Forall supported pre -> ~ supported bad ->
  validateScope rw req
  = (false,
     errorResponse rw InvalidScope ("Unsupported scope: " +:+ bad) StatusBadRequest).
Proof.
  intros Hsplit Hpre Hbad. unfold validateScope. rewrite Hsplit.
  apply checkScopes_first_bad.
  - eapply Forall_impl; [exact Hpre|]. intros sc Hsc. now apply allowed_supported.
  - intros Hin. now apply allowed_supported in Hin.
Qed.

(** Each validator either passes and leaves the writer alone, or fails
    with an error response. *)

Lemma errorReply_intro (rw : ResponseWriter) (error description : string) (code : Z) :
  code <> StatusOK -> code <> StatusFound ->
  errorReply rw (errorResponse rw error description code).
Proof. intros. exists error, description, code. auto. Qed.

Create HintDb replies.

#[local] Hint Extern 1 (errorReply _ (errorResponse _ _ _ _)) =>
  apply errorReply_intro; discriminate : replies.
#[local] Hint Extern 1 (errorReply _ (internalServerError _ _)) =>
  apply errorReply_intro; discriminate : replies.

Lemma errorReply_status (rw rw' : ResponseWriter) :
  Sent rw = None -> errorReply rw rw' ->
  exists code, status rw' = Some code /\ code <> StatusOK /\ code <> StatusFound.
Proof.
  intros Hs (error & description & code & -> & H1 & H2).
  exists code. auto using errorResponse_status.
Qed.

Lemma errorReply_noCache (rw rw' : ResponseWriter) :
  Sent rw = None -> errorReply rw rw' -> sentNoCache rw'.
Proof.
  intros Hs (error & description & code & -> & _). now apply errorResponse_noCache.
Qed.

Lemma assertPresence_cases (params : list string) (rw : ResponseWriter) (req : Request) :
  assertPresence params rw req = (true, rw) /\ Forall (present req) params
  \/ exists rw', assertPresence params rw req = (false, rw') /\ errorReply rw rw'.
Proof.
  induction params as [|p ps IH]; simpl.
  - left. auto.
  - destruct (String.eqb_spec (Get (Form req) p) "") as [He|Hne]; cbn [negb].
    + right. eexists. split; [reflexivity|]. auto with replies.
    + destruct IH as [[IH1 IH2]|IH]; [left|right; exact IH]. auto.
Qed.

Lemma assertEqual_cases (param value errorType errorMsg : string)
    (rw : ResponseWriter) (req : Request) :
  assertEqual param value errorType errorMsg rw req = (true, rw)
    /\ Get (Form req) param = value
  \/ exists rw',
       assertEqual param value errorType errorMsg rw req = (false, rw')
       /\ errorReply rw rw'.
Proof.
  rewrite assertEqual_eq.
  destruct (String.eqb_spec value (Get (Form req) param)) as [He|Hne].
  - left. auto.
  - right. eexists. split; [reflexivity|]. auto with replies.
Qed.

Lemma checkScopes_cases (allowed : gset string) (scopes : list string)
    (rw : ResponseWriter) :
  checkScopes allowed scopes rw = (true, rw)
  \/ exists rw', checkScopes allowed scopes rw = (false, rw') /\ errorReply rw rw'.
Proof.
  induction scopes as [|sc scs IH]; simpl; [now left|].
  destruct (bool_decide (sc ∈ allowed)); cbn [negb]; [exact IH|].
  right. eexists. split; [reflexivity|]. auto with replies.
Qed.

Lemma validateScope_cases (rw : ResponseWriter) (req : Request) :
  validateScope rw req = (true, rw)
  \/ exists rw', validateScope rw req = (false, rw') /\ errorReply rw rw'.
Proof. apply checkScopes_cases. Qed.

(** ** The Token flow *)

Section TokenFlow.

Context {T : CollaboratorTypes} {C : Collaborators T}.

Implicit Types (m : MockOIDC) (rw : ResponseWriter) (req : Request) (s : Session).

Lemma validateTokenParams_ok m rw req :
  clientAuthenticated m req -> present req "grant_type" ->
  validateTokenParams m rw req = (true, rw).
Proof.
  intros (_ & Hid & Hidne & Hsec & Hsecne) Hgt. unfold validateTokenParams.
  rewrite assertPresence_present.
  - cbn [negb]. rewrite (assertEqual_match "client_id") by assumption.
    cbn [negb]. rewrite (assertEqual_match "client_secret") by assumption.
    reflexivity.
  - repeat constructor; unfold present; congruence.
Qed.

Lemma validateTokenParams_missing m rw req (pre : list string) (param : string)
    (post : list string) :
  ["client_id"; "client_secret"; "grant_type"] = (pre ++ param :: post)%list ->
  Forall (present req) pre -> Get (Form req) param = "" ->
  validateTokenParams m rw req
  = (false,
     errorResponse rw InvalidRequest
       ("The request is missing the required parameter: " +:+ param) StatusBadRequest).
Proof.
  intros Hsplit Hpre Hmiss. unfold validateTokenParams. rewrite Hsplit.
  rewrite assertPresence_missing by assumption. reflexivity.
Qed.

Lemma authorizeToken_unexpired m (t : string) (token : JwtToken) rw :
  unexpired m t token -> authorizeToken m t rw = (Some token, rw).
Proof.
  intros (Hv & claims & exp & Hc & Hexp & Hle). unfold authorizeToken.
  rewrite Hv, Hc, Hexp.
  destruct (Z.gtb_spec (Unix (Now m)) (int64 exp)); [lia|reflexivity].
Qed.

Lemma validateCodeGrant_fresh m rw req (code : string) s :
  Get (Form req) "grant_type" = "authorization_code" ->
  Get (Form req) "code" = code -> code <> "" ->
  SessionStore m !! code = Some s -> Granted s = false ->
  validateCodeGrant m rw req
  = (withStore (<[code := grant s]> (SessionStore m)) m, rw, Some (grant s)).
Proof.
  intros Hgt Hcode Hne Hs Hg. unfold validateCodeGrant.
  rewrite (assertPresence_present ["code"])
    by (repeat constructor; unfold present; congruence).
  cbn [negb]. rewrite (assertEqual_match "grant_type") by assumption.
  cbn [negb]. unfold GetSessionByID. rewrite Hcode, Hs, Hg. reflexivity.
Qed.

Lemma validateCodeGrant_spent m rw req (code : string) :
  Get (Form req) "grant_type" = "authorization_code" ->
  Get (Form req) "code" = code -> code <> "" ->
  (SessionStore m !! code = None
   \/ exists s, SessionStore m !! code = Some s /\ Granted s = true) ->
  validateCodeGrant m rw req
  = (m, errorResponse rw InvalidGrant ("Invalid code: " +:+ code) StatusUnauthorized, None).
Proof.
  intros Hgt Hcode Hne Hs. unfold validateCodeGrant.
  rewrite (assertPresence_present ["code"])
    by (repeat constructor; unfold present; congruence).
  cbn [negb]. rewrite (assertEqual_match "grant_type") by assumption.
  cbn [negb]. unfold GetSessionByID. rewrite Hcode.
  destruct Hs as [-> | (s & -> & ->)]; reflexivity.
Qed.

Lemma validateRefreshGrant_bound m rw req (t : string) (token : JwtToken) s :
  Get (Form req) "grant_type" = "refresh_token" ->
  Get (Form req) "refresh_token" = t -> t <> "" ->
  unexpired m t token -> GetSessionByToken (SessionStore m) token = Ok s ->
  validateRefreshGrant m rw req = (m, rw, Some s).
Proof.
  intros Hgt Ht Hne Hu Hs. unfold validateRefreshGrant.
  rewrite (assertPresence_present ["refresh_token"])
    by (repeat constructor; unfold present; congruence).
  cbn [negb]. rewrite (assertEqual_match "grant_type") by assumption.
  cbn [negb]. rewrite Ht, (authorizeToken_unexpired m t token) by assumption.
  rewrite Hs. reflexivity.
Qed.

Lemma Token_redeem m rw req (code : string) s :
  redeems m req code ->
  SessionStore m !! code = Some s -> Granted s = false ->
  let m' := withStore (<[code := grant s]> (SessionStore m)) m in
  Token m rw req = (m', respondTokens m' rw req (grant s) "authorization_code").
Proof.
  intros (Hauth & Hgt & Hcode & Hne) Hs Hg m'. unfold Token.
  rewrite (proj1 Hauth).
  rewrite validateTokenParams_ok by (auto; unfold present; rewrite Hgt; discriminate).
  cbn [negb]. rewrite Hgt. cbn [String.eqb Ascii.eqb Bool.eqb].
  rewrite (validateCodeGrant_fresh m rw req code s) by assumption.
  reflexivity.
Qed.

Lemma Token_spent m rw req (code : string) :
  redeems m req code ->
  (SessionStore m !! code = None
   \/ exists s, SessionStore m !! code = Some s /\ Granted s = true) ->
  Token m rw req
  = (m, errorResponse rw InvalidGrant ("Invalid code: " +:+ code) StatusUnauthorized).
Proof.
  intros (Hauth & Hgt & Hcode & Hne) Hs. unfold Token.
  rewrite (proj1 Hauth).
  rewrite validateTokenParams_ok by (auto; unfold present; rewrite Hgt; discriminate).
  cbn [negb]. rewrite Hgt. cbn [String.eqb Ascii.eqb Bool.eqb].
  rewrite (validateCodeGrant_spent m rw req code) by assumption.
  reflexivity.
Qed.

Lemma Token_refresh m rw req (t : string) (token : JwtToken) s :
  refreshes m req t -> unexpired m t token ->
  GetSessionByToken (SessionStore m) token = Ok s ->
  Token m rw req = (m, respondTokens m rw req s "refresh_token").
Proof.
  intros (Hauth & Hgt & Ht & Hne) Hu Hs. unfold Token.
  rewrite (proj1 Hauth).
  rewrite validateTokenParams_ok by (auto; unfold present; rewrite Hgt; discriminate).
  cbn [negb]. rewrite Hgt. cbn [String.eqb Ascii.eqb Bool.eqb].
  rewrite (validateRefreshGrant_bound m rw req t token s) by assumption.
  reflexivity.
Qed.

(** *** Every path of the Token flow *)

Lemma authorizeToken_cases m (t : string) rw :
  (exists token, authorizeToken m t rw = (Some token, rw) /\ unexpired m t token)
  \/ exists rw', authorizeToken m t rw = (None, rw') /\ errorReply rw rw'.
Proof.
  unfold authorizeToken, unexpired.
  destruct (VerifyJWT (Keys m) t) as [token|err] eqn:Hv;
    [|right; eexists; split; [reflexivity|auto with replies]].
  destruct (TokenClaims token) as [claims|] eqn:Hc;
    [|right; eexists; split; [reflexivity|auto with replies]].
  destruct (claims !! "exp") as [[exp| | | |]|] eqn:Hexp;
    try (right; eexists; split; [reflexivity|auto with replies]).
  destruct (Z.gtb_spec (Unix (Now m)) (int64 exp)).
  - right; eexists; split; [reflexivity|auto with replies].
  - left. exists token. split; [reflexivity|]. split; [reflexivity|].
    exists claims, exp. auto.
Qed.

Lemma validateTokenParams_cases m rw req :
  validateTokenParams m rw req = (true, rw)
    /\ clientCredentials m req /\ present req "grant_type"
  \/ exists rw', validateTokenParams m rw req = (false, rw') /\ errorReply rw rw'.
Proof.
  unfold validateTokenParams.
  destruct (assertPresence_cases ["client_id"; "client_secret"; "grant_type"] rw req)
    as [[-> Hp]|(rw1 & -> & Hr)]; cbn [negb]; [|right; eauto].
  destruct (assertEqual_cases "client_id" (ClientID m) InvalidClient "Invalid client id"
              rw req) as [[-> Hid]|(rw2 & -> & Hr)]; cbn [negb]; [|right; eauto].
  destruct (assertEqual_cases "client_secret" (ClientSecret m) InvalidClient
              "Invalid client secret" rw req) as [[-> Hsec]|(rw3 & -> & Hr)];
    cbn [negb]; [|right; eauto].
  left. split; [reflexivity|].
  inversion Hp as [|? ? H1 Hp1]; subst. inversion Hp1 as [|? ? H2 Hp2]; subst.
  inversion Hp2 as [|? ? H3 _]; subst.
  unfold clientCredentials, present in *. rewrite <- Hid, <- Hsec. auto.
Qed.

Lemma validateCodeGrant_cases m rw req :
  (exists s,
     SessionStore m !! Get (Form req) "code" = Some s /\ Granted s = false
     /\ validateCodeGrant m rw req
        = (withStore (<[Get (Form req) "code" := grant s]> (SessionStore m)) m, rw,
           Some (grant s)))
  \/ exists rw', validateCodeGrant m rw req = (m, rw', None) /\ errorReply rw rw'.
Proof.
  unfold validateCodeGrant.
  destruct (assertPresence_cases ["code"] rw req) as [[-> _]|(rw1 & -> & Hr)];
    cbn [negb]; [|right; eauto].
  destruct (assertEqual_cases "grant_type" "authorization_code" UnsupportedGrantType
              "Invalid grant type" rw req) as [[-> _]|(rw2 & -> & Hr)];
    cbn [negb]; [|right; eauto].
  unfold GetSessionByID.
  destruct (SessionStore m !! Get (Form req) "code") as [s|] eqn:Hs;
    [|right; eexists; split; [reflexivity|auto with replies]].
  destruct (Granted s) eqn:Hg; [right; eexists; split; [reflexivity|auto with replies]|].
  left. exists s. auto.
Qed.

Lemma validateRefreshGrant_cases m rw req :
  (exists token s,
     unexpired m (Get (Form req) "refresh_token") token
     /\ GetSessionByToken (SessionStore m) token = Ok s
     /\ validateRefreshGrant m rw req = (m, rw, Some s))
  \/ exists rw', validateRefreshGrant m rw req = (m, rw', None) /\ errorReply rw rw'.
Proof.
  unfold validateRefreshGrant.
  destruct (assertPresence_cases ["refresh_token"] rw req) as [[-> _]|(rw1 & -> & Hr)];
    cbn [negb]; [|right; eauto].
  destruct (assertEqual_cases "grant_type" "refresh_token" UnsupportedGrantType
              "Invalid grant type" rw req) as [[-> _]|(rw2 & -> & Hr)];
    cbn [negb]; [|right; eauto].
  destruct (authorizeToken_cases m (Get (Form req) "refresh_token") rw)
    as [(token & -> & Hu)|(rw3 & -> & Hr)]; [|right; eauto].
  destruct (GetSessionByToken (SessionStore m) token) as [s|err] eqn:Hs.
  - left. exists token, s. auto.
  - right. eexists. split; [reflexivity|auto with replies].
Qed.

Lemma respondTokens_cases m rw req s (grantType : string) :
  (exists tr minted,
     setTokens m (newTokenResponse m req) s grantType = Ok (tr, minted)
     /\ respondTokens m rw req s grantType = jsonResponse (noCache rw) (TokenJSON tr))
  \/ errorReply rw (respondTokens m rw req s grantType).
Proof.
  unfold respondTokens.
  destruct (setTokens m (newTokenResponse m req) s grantType) as [[tr minted]|err].
  - left. eauto.
  - right. auto with replies.
Qed.

Lemma Token_outcome m rw req :
  TokenOutcome m rw req (fst (Token m rw req)) (snd (Token m rw req)).
Proof.
  unfold Token.
  destruct (ParseForm req) as [err|] eqn:Hparse;
    [cbn [fst snd]; apply TokenRejected; auto with replies|].
  destruct (validateTokenParams_cases m rw req) as [(-> & Hauth & Hgt)|(rw1 & -> & Hr)];
    cbn [negb fst snd]; [|now apply TokenRejected].
  destruct (String.eqb_spec (Get (Form req) "grant_type") "authorization_code") as [He|_].
  - destruct (validateCodeGrant_cases m rw req) as [(s & Hs & Hg & ->)|(rw2 & -> & Hr)];
      cbn [fst snd]; [|now apply TokenRejected].
    rewrite He. now apply TokenCodeGrant.
  - destruct (String.eqb_spec (Get (Form req) "grant_type") "refresh_token") as [He|_].
    + destruct (validateRefreshGrant_cases m rw req)
        as [(token & s & Hu & Hs & ->)|(rw2 & -> & Hr)];
        cbn [fst snd]; [|now apply TokenRejected].
      rewrite He. now apply (TokenRefreshGrant m rw req token s).
    + cbn [fst snd]. apply TokenRejected. auto with replies.
Qed.

(** A Token request answered 200 went through one of the two grants,
    and its body is the token set [setTokens] assembled. *)
Lemma Token_ok_inv m rw req :
  Sent rw = None -> status (snd (Token m rw req)) = Some StatusOK ->
  exists s tr minted,
    setTokens (fst (Token m rw req)) (newTokenResponse (fst (Token m rw req)) req) s
      (Get (Form req) "grant_type") = Ok (tr, minted)
    /\ snd (Token m rw req) = jsonResponse (noCache rw) (TokenJSON tr)
    /\ (Get (Form req) "grant_type" = "authorization_code"
        \/ Get (Form req) "grant_type" = "refresh_token").
Proof.
  intros Hsent Hok.
  assert (forall rw0, errorReply rw rw0 -> status rw0 <> Some StatusOK) as Hnot.
  { intros rw0 Hr Hst.
    destruct (errorReply_status rw rw0 Hsent Hr) as (code & Hc & Hne & _). congruence. }
  destruct (Token_outcome m rw req)
    as [rw' Hr|s _ Hgt _ _ m'|token s _ Hgt _ _].
  - exfalso. now apply (Hnot rw').
  - destruct (respondTokens_cases m' rw req (grant s) "authorization_code")
      as [(tr & minted & Hset & Heq)|Hr]; [|exfalso; now apply (Hnot _ Hr)].
    exists (grant s), tr, minted. rewrite Hgt. auto.
  - destruct (respondTokens_cases m rw req s "refresh_token")
      as [(tr & minted & Hset & Heq)|Hr]; [|exfalso; now apply (Hnot _ Hr)].
    exists s, tr, minted. rewrite Hgt. auto.
Qed.

(** *** Token assembly *)

Lemma openidFirst_cons (first : string) (rest : list string) :
  openidFirst (first :: rest) <-> first = "openid".
Proof.
  unfold openidFirst. split.
  - intros (r & Heq). now injection Heq.
  - intros ->. now exists rest.
Qed.

Lemma openidFirst_nil : ~ openidFirst [].
Proof. intros (r & Heq). discriminate. Qed.

(** What a successful [setTokens] has put in the response and signed. *)
Lemma setTokens_ok m (tr0 : tokenResponse) s (grantType : string)
    (tr : tokenResponse) (minted : list Mint) :
  setTokens m tr0 s grantType = Ok (tr, minted) ->
  (SessionAccessToken s (ConfigOf m) (Keys m) (Now m) = Ok (AccessToken tr)
   /\ In MintAccessToken minted)
  /\ (openidFirst (Scopes s) ->
      SessionIDToken s (ConfigOf m) (Keys m) (Now m) = Ok (IDToken tr)
      /\ In MintIDToken minted)
  /\ (~ openidFirst (Scopes s) -> IDToken tr = IDToken tr0 /\ ~ In MintIDToken minted)
  /\ (grantType <> "refresh_token" ->
      SessionRefreshToken s (ConfigOf m) (Keys m) (Now m) = Ok (RefreshToken tr)
      /\ In MintRefreshToken minted)
  /\ (grantType = "refresh_token" ->
      RefreshToken tr = RefreshToken tr0 /\ ~ In MintRefreshToken minted)
  /\ TokenType tr = TokenType tr0 /\ ExpiresIn tr = ExpiresIn tr0.
Proof.
  unfold setTokens.
  destruct (SessionAccessToken s (ConfigOf m) (Keys m) (Now m)) as [access|] eqn:Ha;
    [|discriminate].
  destruct (Scopes s) as [|first rest] eqn:Hsc.
  - pose proof openidFirst_nil as Hnil.
    destruct (String.eqb_spec grantType "refresh_token") as [Hg|Hg]; cbn [negb].
    + intros [= <- <-]. simpl. intuition (try discriminate; try congruence).
    + destruct (SessionRefreshToken s (ConfigOf m) (Keys m) (Now m)) as [refresh|] eqn:Hr;
        [|discriminate].
      intros [= <- <-]. simpl. intuition (try discriminate; try congruence).
  - pose proof (openidFirst_cons first rest) as Hcons. unfold openidScope.
    destruct (String.eqb_spec first "openid") as [Hf|Hf].
    + destruct (SessionIDToken s (ConfigOf m) (Keys m) (Now m)) as [idt|] eqn:Hi;
        [|discriminate].
      destruct (String.eqb_spec grantType "refresh_token") as [Hg|Hg]; cbn [negb].
      * intros [= <- <-]. simpl. intuition (try discriminate; try congruence).
      * destruct (SessionRefreshToken s (ConfigOf m) (Keys m) (Now m)) as [refresh|] eqn:Hr;
          [|discriminate].
        intros [= <- <-]. simpl. intuition (try discriminate; try congruence).
    + destruct (String.eqb_spec grantType "refresh_token") as [Hg|Hg]; cbn [negb].
      * intros [= <- <-]. simpl. intuition (try discriminate; try congruence).
      * destruct (SessionRefreshToken s (ConfigOf m) (Keys m) (Now m)) as [refresh|] eqn:Hr;
          [|discriminate].
        intros [= <- <-]. simpl. intuition (try discriminate; try congruence).
Qed.

(** *** Runs of Token requests *)

Lemma Token_server m rw req :
  fst (Token m rw req) = m
  \/ exists s,
       Get (Form req) "grant_type" = "authorization_code"
       /\ SessionStore m !! Get (Form req) "code" = Some s /\ Granted s = false
       /\ fst (Token m rw req)
          = withStore (<[Get (Form req) "code" := grant s]> (SessionStore m)) m.
Proof.
  destruct (Token_outcome m rw req) as [rw' _|s _ Hgt Hs Hg m'|token s _ _ _ _].
  - now left.
  - right. exists s. auto.
  - now left.
Qed.





End TokenFlow.

(** ** The other flows *)

Section OtherFlows.

Context {T : CollaboratorTypes} {C : Collaborators T}.

Implicit Types (m : MockOIDC) (rw : ResponseWriter) (req : Request) (s : Session).

Lemma authorizeBearer_header m rw req (t : string) :
  Get (Header req) "Authorization" = "Bearer " +:+ t ->
  authorizeBearer m rw req = authorizeToken m t rw.
Proof.
  intros Hh. unfold authorizeBearer. rewrite Hh. reflexivity.
Qed.

Lemma authorizeBearer_cases m rw req :
  (exists token, authorizeBearer m rw req = (Some token, rw))
  \/ exists rw', authorizeBearer m rw req = (None, rw') /\ errorReply rw rw'.
Proof.
  unfold authorizeBearer.
  destruct (SplitN2 (Get (Header req) "Authorization")) as [|scheme [|t [|? ?]]];
    try (right; eexists; split; [reflexivity|auto with replies]).
  destruct (String.eqb scheme "Bearer"); cbn [negb];
    [|right; eexists; split; [reflexivity|auto with replies]].
  destruct (authorizeToken_cases m t rw) as [(token & -> & _)|(rw' & -> & Hr)]; eauto.
Qed.

(** What the redirect of [Authorize] puts on the wire: the status, the
    [Location], and of the other headers those the writer had. *)
Lemma Redirect_sent rw req (url : string) (code : Z) :
  Sent rw = None ->
  status (Redirect rw req url code) = Some code
  /\ sentHeader (Redirect rw req url code) "Location" = Some (location req url)
  /\ forall k : string,
       k <> "Location" -> k <> "Content-Type" ->
       sentHeader (Redirect rw req url code) k = RwHeader rw !! k.
Proof.
  intros Hs. unfold Redirect, status, sentHeader.
  destruct (bool_decide (is_Some (RwHeader rw !! "Content-Type"))); cbn [negb andb];
    destruct (String.eqb (Method req) "GET"); cbn [orb];
    try destruct (String.eqb (Method req) "HEAD");
    unfold Write, WriteHeader, HeaderSet; simpl; rewrite Hs; simpl;
    (split; [reflexivity|]); (split; [by simplify_map_eq|]);
    intros k Hk1 Hk2; by simplify_map_eq.
Qed.

Lemma Authorize_outcome m rw req :
  AuthorizeOutcome m rw req (fst (Authorize m rw req)) (snd (Authorize m rw req)).
Proof.
  unfold Authorize.
  destruct (ParseForm req) as [err|];
    [cbn [fst snd]; apply AuthorizeRejected; auto with replies|].
  destruct (assertPresence_cases
              ["scope"; "state"; "client_id"; "response_type"; "redirect_uri"] rw req)
    as [[-> _]|(rw1 & -> & Hr)]; cbn [negb fst snd]; [|now apply AuthorizeRejected].
  destruct (validateScope_cases rw req) as [->|(rw1 & -> & Hr)];
    cbn [negb fst snd]; [|now apply AuthorizeRejected].
  destruct (assertEqual_cases "client_id" (ClientID m) InvalidClient "Invalid client id"
              rw req) as [[-> _]|(rw1 & -> & Hr)];
    cbn [negb fst snd]; [|now apply AuthorizeRejected].
  destruct (assertEqual_cases "response_type" "code" UnsupportedGrantType
              "Invalid response type" rw req) as [[-> _]|(rw1 & -> & Hr)];
    cbn [negb fst snd]; [|now apply AuthorizeRejected].
  destruct (Pop (Users m)) as [user queue] eqn:Hpop. cbn [SessionStore withUsers].
  destruct (NewSession (SessionStore m) (Get (Form req) "scope") (Get (Form req) "nonce")
              user) as [[s store]|err] eqn:Hnew; cbn [fst snd].
  - destruct (urlParse (Get (Form req) "redirect_uri")) as [u|err]; cbn [fst snd].
    + now apply (AuthorizeRedirected m rw req user queue s store).
    + apply (AuthorizeBadRedirect m rw req user queue s store); auto with replies.
  - apply (AuthorizeNoSession m rw req user queue); auto with replies.
Qed.

Lemma Authorize_missing m rw req (pre : list string) (param : string) (post : list string) :
  ParseForm req = None ->
  ["scope"; "state"; "client_id"; "response_type"; "redirect_uri"]
  = (pre ++ param :: post)%list ->
  Forall (present req) pre -> Get (Form req) param = "" ->
  Authorize m rw req
  = (m, errorResponse rw InvalidRequest
          ("The request is missing the required parameter: " +:+ param) StatusBadRequest).
Proof.
  intros Hparse Hsplit Hpre Hmiss. unfold Authorize. rewrite Hparse, Hsplit.
  rewrite assertPresence_missing by assumption. reflexivity.
Qed.

Lemma Authorize_unsupported_scope m rw req (pre : list string) (bad : string)
    (post : list string) :
  ParseForm req = None ->
  Forall (present req) ["scope"; "state"; "client_id"; "response_type"; "redirect_uri"] ->
  Split (Get (Form req) "scope") = (pre ++ bad :: post)%list ->
  Forall supported pre -> ~ supported bad ->
  Authorize m rw req
  = (m, errorResponse rw InvalidScope ("Unsupported scope: " +:+ bad) StatusBadRequest).
Proof.
  intros Hparse Hall Hsplit Hpre Hbad. unfold Authorize. rewrite Hparse.
  rewrite assertPresence_present by assumption. cbn [negb].
  rewrite (validateScope_unsupported pre bad post) by assumption. reflexivity.
Qed.

Lemma Userinfo_outcome m rw req :
  fst (Userinfo m rw req) = m
  /\ (errorReply rw (snd (Userinfo m rw req))
      \/ exists resp, snd (Userinfo m rw req) = jsonResponse rw (RawJSON resp)).
Proof.
  unfold Userinfo.
  destruct (authorizeBearer_cases m rw req) as [(token & ->)|(rw' & -> & Hr)];
    [|cbn [fst snd]; auto].
  destruct (GetSessionByToken (SessionStore m) token) as [s|err];
    [|cbn [fst snd]; auto with replies].
  destruct (UserUserinfo (SessionUser s) (Scopes s)) as [resp|err]; cbn [fst snd];
    [eauto|auto with replies].
Qed.

Lemma JWKS_outcome m rw req :
  fst (JWKS m rw req) = m
  /\ (errorReply rw (snd (JWKS m rw req))
      \/ exists jwks, snd (JWKS m rw req) = jsonResponse rw (RawJSON jwks)).
Proof.
  unfold JWKS. destruct (KeypairJWKS (Keys m)) as [jwks|err]; cbn [fst snd];
    [eauto|auto with replies].
Qed.

Lemma Discovery_outcome m rw req :
  fst (Discovery m rw req) = m
  /\ exists d, snd (Discovery m rw req) = jsonResponse rw (DiscoveryJSON d).
Proof.
  unfold Discovery. cbn [fst snd]. eauto.
Qed.

Lemma Token_noCache m req : sentNoCache (snd (Token m freshWriter req)).
Proof.
  destruct (Token_outcome m freshWriter req) as [rw' Hr|s _ _ _ _ m'|token s _ _ _ _].
  - now apply (errorReply_noCache freshWriter).
  - destruct (respondTokens_cases m' freshWriter req (grant s) "authorization_code")
      as [(tr & minted & _ & ->)|Hr].
    + now apply jsonResponse_noCache.
    + now apply (errorReply_noCache freshWriter).
  - destruct (respondTokens_cases m freshWriter req s "refresh_token")
      as [(tr & minted & _ & ->)|Hr].
    + now apply jsonResponse_noCache.
    + now apply (errorReply_noCache freshWriter).
Qed.

(** For a timestamp (a float that is not negative and below [2^63]),
    [int64 exp] is its integer part, and that lies before the integer
    [n] exactly when the value of [exp] does. *)
Lemma int64_before (exp : spec_float) (n v : Z) :
  finiteNonneg exp -> truncate exp = Some v -> v <= maxInt64 ->
  (int64 exp < n <-> before exp n).
Proof.
  intros Hnn Htr Hmax.
  assert (0 <= v /\ (v < n <-> before exp n)) as [Hv Hiff].
  { destruct exp as [sg|sg| |[|] mnt e]; simpl in Hnn; try contradiction;
      simpl in Htr; injection Htr as <-; unfold before; [split; [lia|reflexivity]|].
    destruct (Z.leb_spec 0 e) as [He|He].
    - split; [|reflexivity].
      apply Z.mul_nonneg_nonneg; [lia|apply Z.pow_nonneg; lia].
    - assert (0 < 2 ^ (- e)) as Hpos by (apply Z.pow_pos_nonneg; lia).
      split; [apply Z.div_pos; lia|]. split.
      + intros Hlt.
        destruct (Z.lt_ge_cases (Z.pos mnt) (n * 2 ^ (- e))) as [|Hge]; [assumption|].
        assert (n <= Z.pos mnt / 2 ^ (- e)) by (apply Z.div_le_lower_bound; lia). lia.
      + intros Hlt. apply Z.div_lt_upper_bound; lia. }
  unfold int64. rewrite Htr.
  rewrite (proj2 (Z.leb_le minInt64 v)) by (unfold minInt64; lia).
  rewrite (proj2 (Z.leb_le v maxInt64)) by assumption.
  exact Hiff.
Qed.

End OtherFlows.

(** * The claims *)

Section Claims.

Context {T : CollaboratorTypes} {C : Collaborators T}.

Implicit Types (m : MockOIDC) (rw : ResponseWriter) (req : Request) (s : Session).




(** C5. An expired bearer token is refused. A token whose signature
    verifies, with claims that are a map: when its [exp] claim is a
    number whose integer part [int64(exp)] lies before the clock's
    Unix second (for a timestamp, a float that is not negative and
    below [2^63]: when the value of [exp] lies before it), the Bearer
    Authorizer answers 401 [invalid_request] with the description
    [The token is expired]; when [exp] is missing or is not a number,
    it answers with a 500 internal error. The token reaches the
    authorizer as it is, or behind [Bearer ] in the [Authorization]
    header. *)
Theorem expired_bearer_token_rejected m (t : string) rw (token : JwtToken)
    (claims : gmap string ClaimValue) :
  VerifyJWT (Keys m) t = Ok token ->
  TokenClaims token = MapClaims claims ->
  (forall exp : spec_float,
     claims !! "exp" = Some (VFloat64 exp) -> int64 exp < Unix (Now m) ->
     authorizeToken m t rw
     = (None, errorResponse rw InvalidRequest "The token is expired" StatusUnauthorized))
  /\ (forall (exp : spec_float) (v : Z),
        claims !! "exp" = Some (VFloat64 exp) ->
        finiteNonneg exp -> truncate exp = Some v -> v <= maxInt64 ->
        before exp (Unix (Now m)) ->
        authorizeToken m t rw
        = (None, errorResponse rw InvalidRequest "The token is expired" StatusUnauthorized))
  /\ ((forall exp : spec_float, claims !! "exp" <> Some (VFloat64 exp)) ->
      authorizeToken m t rw
      = (None,
         errorResponse rw "internal_server_error" "Unable to extract token expiration"
           StatusInternalServerError))
  /\ (forall req,
        Get (Header req) "Authorization" = "Bearer " +:+ t ->
        authorizeBearer m rw req = authorizeToken m t rw).
Proof.
  intros Hv Hc.
  assert (forall exp : spec_float,
            claims !! "exp" = Some (VFloat64 exp) -> int64 exp < Unix (Now m) ->
            authorizeToken m t rw
            = (None,
               errorResponse rw InvalidRequest "The token is expired" StatusUnauthorized))
    as Hexpired.
  { intros exp Hexp Hlt. unfold authorizeToken. rewrite Hv, Hc, Hexp.
    destruct (Z.gtb_spec (Unix (Now m)) (int64 exp)); [reflexivity|lia]. }
  split; [exact Hexpired|]. split; [|split].
  - intros exp v Hexp Hnn Htr Hmax Hbefore. apply (Hexpired exp Hexp).
    now apply (int64_before exp (Unix (Now m)) v).
  - intros Hnone. unfold authorizeToken. rewrite Hv, Hc.
    destruct (claims !! "exp") as [[exp| | | |]|]; try reflexivity.
    now destruct (Hnone exp).
  - intros req. apply authorizeBearer_header.
Qed.

(** C6. Another grant type is an invalid request. A Token request that
    passes the client pre-check (its form parses, [client_id] and
    [client_secret] are the configured ones) and whose [grant_type] is
    present but is neither [authorization_code] nor [refresh_token] is
    answered 400 with the kind [invalid_request] and a description
    that names the submitted grant type; that kind is not
    [unsupported_grant_type]. The server is left as it was. *)
Theorem other_grant_type_invalid_request m rw req :
  clientAuthenticated m req -> present req "grant_type" ->
  Get (Form req) "grant_type" <> "authorization_code" ->
  Get (Form req) "grant_type" <> "refresh_token" ->
  Token m rw req
  = (m, errorResponse rw InvalidRequest
          ("Invalid grant type: " +:+ Get (Form req) "grant_type") StatusBadRequest)
  /\ InvalidRequest <> UnsupportedGrantType.
Proof.
  intros Hauth Hgt Hcode Hrefresh. split; [|discriminate].
  unfold Token. rewrite (proj1 Hauth).
  rewrite validateTokenParams_ok by assumption. cbn [negb].
  destruct (String.eqb_spec (Get (Form req) "grant_type") "authorization_code");
    [contradiction|].
  destruct (String.eqb_spec (Get (Form req) "grant_type") "refresh_token");
    [contradiction|].
  reflexivity.
Qed.

(** C7, amended. The scope check of Authorize. When the scopes of the
    [scope] parameter (its pieces between single spaces) contain one
    that is not supported, [validateScope] answers 400
    [invalid_scope], naming the first such scope, and so does Authorize
    for a request whose form parses and has all five required
    parameters, leaving the server as it was. When all the scopes are
    supported, the scope check succeeds and writes nothing. *)
Theorem unsupported_scope_rejected m rw req :
  (forall (pre : list string) (bad : string) (post : list string),
     Split (Get (Form req) "scope") = (pre ++ bad :: post)%list ->
     Forall supported pre -> ~ supported bad ->
     validateScope rw req
     = (false, errorResponse rw InvalidScope ("Unsupported scope: " +:+ bad) StatusBadRequest)
     /\ (ParseForm req = None ->
         Forall (present req)
           ["scope"; "state"; "client_id"; "response_type"; "redirect_uri"] ->
         Authorize m rw req
         = (m, errorResponse rw InvalidScope ("Unsupported scope: " +:+ bad)
                 StatusBadRequest)))
  /\ (Forall supported (Split (Get (Form req) "scope")) ->
      validateScope rw req = (true, rw)).
Proof.
  split.
  - intros pre bad post Hsplit Hpre Hbad. split.
    + now apply (validateScope_unsupported pre bad post).
    + intros Hparse Hall. now apply (Authorize_unsupported_scope m rw req pre bad post).
  - apply validateScope_supported.
Qed.

(** C8, amended. Missing parameters. [assertPresence] answers 400
    [invalid_request] naming the first of its parameters that is
    empty. So does Authorize for the first empty one of [scope],
    [state], [client_id], [response_type], [redirect_uri], and Token
    for the first empty one of [client_id], [client_secret],
    [grant_type]. Token checks the grant's own parameter after the
    client pre-check: a request that passes it with
    [grant_type=authorization_code] and no [code], or with
    [grant_type=refresh_token] and no [refresh_token], is answered 400
    [invalid_request] naming that parameter. In each case the server,
    and with it every session, is left as it was. *)
Theorem missing_parameter_rejected m rw req :
  let missing (param : string) :=
    errorResponse rw InvalidRequest
      ("The request is missing the required parameter: " +:+ param) StatusBadRequest in
  (forall (pre : list string) (param : string) (post : list string),
     Forall (present req) pre -> Get (Form req) param = "" ->
     assertPresence (pre ++ param :: post) rw req = (false, missing param))
  /\ (forall (pre : list string) (param : string) (post : list string),
        ParseForm req = None ->
        Forall (present req) pre -> Get (Form req) param = "" ->
        (["scope"; "state"; "client_id"; "response_type"; "redirect_uri"]
         = (pre ++ param :: post)%list ->
         Authorize m rw req = (m, missing param))
        /\ (["client_id"; "client_secret"; "grant_type"] = (pre ++ param :: post)%list ->
            Token m rw req = (m, missing param)))
  /\ (clientAuthenticated m req ->
      (Get (Form req) "grant_type" = "authorization_code" ->
       Get (Form req) "code" = "" ->
       Token m rw req = (m, missing "code"))
      /\ (Get (Form req) "grant_type" = "refresh_token" ->
          Get (Form req) "refresh_token" = "" ->
          Token m rw req = (m, missing "refresh_token"))).
Proof.
  intros missing. split; [|split].
  - intros pre param post Hpre Hmiss. now apply assertPresence_missing.
  - intros pre param post Hparse Hpre Hmiss. split; intros Hsplit.
    + now apply (Authorize_missing m rw req pre param post).
    + unfold Token. rewrite Hparse.
      rewrite (validateTokenParams_missing m rw req pre param post) by assumption.
      reflexivity.
  - intros Hauth. split; intros Hgt Hmiss; unfold Token; rewrite (proj1 Hauth);
      rewrite validateTokenParams_ok
        by (auto; unfold present; rewrite Hgt; discriminate);
      cbn [negb]; rewrite Hgt; cbn [String.eqb Ascii.eqb Bool.eqb].
    + unfold validateCodeGrant.
      rewrite (assertPresence_missing [] "code" []) by (auto; constructor).
      reflexivity.
    + unfold validateRefreshGrant.
      rewrite (assertPresence_missing [] "refresh_token" []) by (auto; constructor).
      reflexivity.
Qed.

(** C9, amended. The no-cache headers. Every response of Token,
    Userinfo, Discovery and JWKS, and every error response of
    Authorize, is sent with [Cache-Control: no-cache, no-store,
    must-revalidate, max-age=0] and [Pragma: no-cache]. The one other
    response is the 302 redirect of a successful Authorize, written by
    [http.Redirect]: it is sent without a [Cache-Control] and without
    a [Pragma] header. *)
Theorem responses_no_cache_but_redirect m req :
  sentNoCache (snd (Token m freshWriter req))
  /\ sentNoCache (snd (Userinfo m freshWriter req))
  /\ sentNoCache (snd (Discovery m freshWriter req))
  /\ sentNoCache (snd (JWKS m freshWriter req))
  /\ (sentNoCache (snd (Authorize m freshWriter req))
      /\ status (snd (Authorize m freshWriter req)) <> Some StatusFound
      \/ (exists target : string,
            snd (Authorize m freshWriter req)
            = Redirect freshWriter req target StatusFound)
         /\ status (snd (Authorize m freshWriter req)) = Some StatusFound
         /\ sentHeader (snd (Authorize m freshWriter req)) "Cache-Control" = None
         /\ sentHeader (snd (Authorize m freshWriter req)) "Pragma" = None).
Proof.
  assert (Sent freshWriter = None) as Hfresh by reflexivity.
  assert (forall rw', errorReply freshWriter rw' ->
            sentNoCache rw' /\ status rw' <> Some StatusFound) as Herr.
  { intros rw' Hr. split; [now apply (errorReply_noCache freshWriter)|].
    destruct (errorReply_status freshWriter rw' Hfresh Hr) as (code & -> & _ & Hne).
    congruence. }
  split; [apply Token_noCache|].
  split.
  { destruct (Userinfo_outcome m freshWriter req) as [_ [Hr|(resp & ->)]].
    - now apply Herr.
    - now apply jsonResponse_noCache. }
  split.
  { destruct (Discovery_outcome m freshWriter req) as [_ (d & ->)].
    now apply jsonResponse_noCache. }
  split.
  { destruct (JWKS_outcome m freshWriter req) as [_ [Hr|(jwks & ->)]].
    - now apply Herr.
    - now apply jsonResponse_noCache. }
  destruct (Authorize_outcome m freshWriter req)
    as [rw' Hr|user queue rw' _ Hr|user queue s store rw' _ _ Hr|user queue s store target _ _];
    try (left; now apply Herr).
  right.
  destruct (Redirect_sent freshWriter req target StatusFound Hfresh) as (Hst & _ & Hother).
  split; [now exists target|]. split; [assumption|].
  split; rewrite Hother; (reflexivity || discriminate).
Qed.

(** C10. The refresh grant leaves the sessions alone. A Token request
    with [grant_type=refresh_token] returns the server, store
    included, as it received it. It is answered from the session
    bound to the submitted token whatever that session's [Granted]
    flag is: given the client's credentials, a refresh token that
    verifies and is not expired, and a session bound to it, the answer
    is the token set (status 200) whenever the tokens can be signed.
    The only write to a session anywhere in the handlers is the one of
    the code grant: a Token request leaves the server as it was or
    sets [Granted] on the ungranted session of its code; Userinfo,
    Discovery and JWKS leave the server as it was; Authorize changes
    the store only by the session the store creates for it. *)
Theorem refresh_grant_leaves_sessions m rw req :
  (Get (Form req) "grant_type" = "refresh_token" -> fst (Token m rw req) = m)
  /\ (forall (t : string) (token : JwtToken) s,
        refreshes m req t -> unexpired m t token ->
        GetSessionByToken (SessionStore m) token = Ok s ->
        fst (Token m rw req) = m
        /\ forall tr minted,
             setTokens m (newTokenResponse m req) s "refresh_token" = Ok (tr, minted) ->
             snd (Token m rw req) = jsonResponse (noCache rw) (TokenJSON tr))
  /\ (fst (Token m rw req) = m
      \/ exists s,
           Get (Form req) "grant_type" = "authorization_code"
           /\ SessionStore m !! Get (Form req) "code" = Some s /\ Granted s = false
           /\ fst (Token m rw req)
              = withStore (<[Get (Form req) "code" := grant s]> (SessionStore m)) m)
  /\ (fst (Userinfo m rw req) = m
      /\ fst (Discovery m rw req) = m
      /\ fst (JWKS m rw req) = m)
  /\ (fst (Authorize m rw req) = m
      \/ exists user queue,
           Pop (Users m) = (user, queue)
           /\ (fst (Authorize m rw req) = withUsers queue m
               \/ exists s store,
                    NewSession (SessionStore m) (Get (Form req) "scope")
                      (Get (Form req) "nonce") user = Ok (s, store)
                    /\ fst (Authorize m rw req) = withStore store (withUsers queue m))).
Proof.
  split; [|split; [|split; [|split]]].
  - intros Hgt.
    destruct (Token_server m rw req) as [Hm|(s & Hgt' & _)]; [assumption|congruence].
  - intros t token s Hreq Hu Hs.
    rewrite (Token_refresh m rw req t token s Hreq Hu Hs). cbn [fst snd].
    split; [reflexivity|]. intros tr minted Hset. unfold respondTokens. now rewrite Hset.
  - apply Token_server.
  - split; [apply Userinfo_outcome|]. split; [apply Discovery_outcome|apply JWKS_outcome].
  - destruct (Authorize_outcome m rw req)
      as [rw' _|user queue rw' Hpop _|user queue s store rw' Hpop Hnew _
         |user queue s store target Hpop Hnew].
    + now left.
    + right. exists user, queue. auto.
    + right. exists user, queue. split; [assumption|]. right. exists s, store. auto.
    + right. exists user, queue. split; [assumption|]. right. exists s, store. auto.
Qed.

End Claims.

(** * The claims on the concrete server *)

Module Checks.

Import Demo.

(** ** The scenarios of the specification *)

Example scenario_authorize :
  seen (snd (Authorize (server ∅) freshWriter (authorizeRequest "openid profile" "abc")))
  = Some (302, None, [RedirectHTML "https://app/cb?code=code-alice&state=abc"]).
Proof. reflexivity. Qed.

Example scenario_code_grant :
  seen (snd (Token (server {[ "c1" := fresh ]}) freshWriter (codeRequest "c1")))
  = Some (200, Some "no-cache, no-store, must-revalidate, max-age=0",
          [TokenJSON {| AccessToken := "access.c1"; RefreshToken := "refresh.c1";
                        IDToken := "id.c1"; TokenType := "bearer"; ExpiresIn := 600 |}]).
Proof. reflexivity. Qed.

Example scenario_code_twice :
  let m := fst (Token (server {[ "c1" := fresh ]}) freshWriter (codeRequest "c1")) in
  seen (snd (Token m freshWriter (codeRequest "c1")))
  = Some (401, Some "no-cache, no-store, must-revalidate, max-age=0",
          [ErrorJSON "invalid_grant" "Invalid code: c1"]).
Proof. reflexivity. Qed.

Example scenario_refresh :
  seen (snd (Token (server {[ "c1" := fresh ]}) freshWriter (refreshRequest "refresh.c1")))
  = Some (200, Some "no-cache, no-store, must-revalidate, max-age=0",
          [TokenJSON {| AccessToken := "access.c1"; RefreshToken := "refresh.c1";
                        IDToken := "id.c1"; TokenType := "bearer"; ExpiresIn := 600 |}]).
Proof. reflexivity. Qed.

Example scenario_expired :
  seen (snd (Userinfo (server {[ "c1" := fresh ]}) freshWriter (bearer "old.c1")))
  = Some (401, Some "no-cache, no-store, must-revalidate, max-age=0",
          [ErrorJSON "invalid_request" "The token is expired"]).
Proof. reflexivity. Qed.

Example scenario_unknown_scope :
  seen (snd (Authorize (server ∅) freshWriter (authorizeRequest "openid unknown" "abc")))
  = Some (400, Some "no-cache, no-store, must-revalidate, max-age=0",
          [ErrorJSON "invalid_scope" "Unsupported scope: unknown"]).
Proof. reflexivity. Qed.

(** ** Witnesses *)


Lemma refreshes_c1 (store : gmap string Session) :
  refreshes (server store) (refreshRequest "refresh.c1") "refresh.c1".
Proof. repeat split; try reflexivity; discriminate. Defined.

Lemma unexpired_refresh_c1 (store : gmap string Session) :
  unexpired (server store) "refresh.c1" (claimsOf (Some (VFloat64 f2000)) "c1").
Proof.
  split; [reflexivity|].
  exists (<["exp" := VFloat64 f2000]> {[ "jti" := VString "c1" ]}), f2000.
  split; [reflexivity|]. split; [reflexivity|]. vm_compute. discriminate.
Defined.




Lemma expired_bearer_token_rejected_witness :
  let m := server ∅ in
  (VerifyJWT (Keys m) "old.c1" = Ok (claimsOf (Some (VFloat64 f50)) "c1")
   /\ int64 f50 < Unix (Now m))
  /\ authorizeToken m "old.c1" freshWriter
     = (None,
        errorResponse freshWriter InvalidRequest "The token is expired" StatusUnauthorized).
Proof.
  intros m.
  assert (VerifyJWT (Keys m) "old.c1" = Ok (claimsOf (Some (VFloat64 f50)) "c1")) as Hv
    by reflexivity.
  assert (TokenClaims (claimsOf (Some (VFloat64 f50)) "c1")
          = MapClaims (<["exp" := VFloat64 f50]> {[ "jti" := VString "c1" ]})) as Hc
    by reflexivity.
  assert (int64 f50 < Unix (Now m)) as Hlt by reflexivity.
  split; [split; assumption|].
  apply (proj1 (expired_bearer_token_rejected m "old.c1" freshWriter _ _ Hv Hc) f50);
    [reflexivity|assumption].
Defined.

Lemma other_grant_type_invalid_request_witness :
  let m := server ∅ in
  let req := post [("client_id", "cid"); ("client_secret", "secret");
                   ("grant_type", "password")] in
  (clientAuthenticated m req /\ present req "grant_type")
  /\ Token m freshWriter req
     = (m, errorResponse freshWriter InvalidRequest "Invalid grant type: password"
             StatusBadRequest).
Proof.
  intros m req.
  assert (clientAuthenticated m req) as Hauth
    by (repeat split; try reflexivity; discriminate).
  assert (present req "grant_type") as Hgt by discriminate.
  split; [split; assumption|].
  apply (other_grant_type_invalid_request m freshWriter req Hauth Hgt); discriminate.
Defined.

Lemma unknown_unsupported : ~ supported "unknown".
Proof. intros [H|[H|[H|[H|[]]]]]; discriminate. Defined.

Lemma unsupported_scope_rejected_witness :
  let m := server ∅ in
  let req := authorizeRequest "openid unknown" "abc" in
  (Split (Get (Form req) "scope") = ["openid"; "unknown"] /\ supported "openid")
  /\ Authorize m freshWriter req
     = (m, errorResponse freshWriter InvalidScope "Unsupported scope: unknown"
             StatusBadRequest).
Proof.
  intros m req.
  assert (supported "openid") as Hopenid by (left; reflexivity).
  split; [split; [reflexivity|assumption]|].
  apply (proj1 (unsupported_scope_rejected m freshWriter req) ["openid"] "unknown" []).
  - reflexivity.
  - constructor; [assumption|constructor].
  - apply unknown_unsupported.
  - reflexivity.
  - repeat constructor; discriminate.
Defined.

Lemma missing_parameter_rejected_witness :
  let m := server {[ "c1" := fresh ]} in
  let req := post [("client_id", "cid"); ("client_secret", "secret");
                   ("grant_type", "authorization_code")] in
  (clientAuthenticated m req /\ Get (Form req) "code" = "")
  /\ Token m freshWriter req
     = (m, errorResponse freshWriter InvalidRequest
             "The request is missing the required parameter: code" StatusBadRequest).
Proof.
  intros m req.
  assert (clientAuthenticated m req) as Hauth
    by (repeat split; try reflexivity; discriminate).
  split; [split; [assumption|reflexivity]|].
  apply (proj2 (proj2 (missing_parameter_rejected m freshWriter req)) Hauth); reflexivity.
Defined.

Lemma refresh_grant_leaves_sessions_witness :
  let m := server {[ "c1" := fresh ]} in
  let req := refreshRequest "refresh.c1" in
  (refreshes m req "refresh.c1" /\ Granted fresh = false
   /\ GetSessionByToken (SessionStore m) (claimsOf (Some (VFloat64 f2000)) "c1") = Ok fresh)
  /\ fst (Token m freshWriter req) = m
  /\ status (snd (Token m freshWriter req)) = Some StatusOK.
Proof.
  intros m req.
  assert (GetSessionByToken (SessionStore m) (claimsOf (Some (VFloat64 f2000)) "c1")
          = Ok fresh) as Hs by reflexivity.
  split; [split; [apply refreshes_c1|split; [reflexivity|exact Hs]]|].
  destruct (proj1 (proj2 (refresh_grant_leaves_sessions m freshWriter req))
              "refresh.c1" (claimsOf (Some (VFloat64 f2000)) "c1") fresh
              (refreshes_c1 _) (unexpired_refresh_c1 _) Hs) as [Hm Hok].
  split; [exact Hm|].
  assert (setTokens m (newTokenResponse m req) fresh "refresh_token"
          = Ok ({| AccessToken := "access.c1"; RefreshToken := "refresh.c1";
                   IDToken := "id.c1"; TokenType := "bearer"; ExpiresIn := 600 |},
                [MintAccessToken; MintIDToken])) as Hset by reflexivity.
  rewrite (Hok _ _ Hset). reflexivity.
Defined.

(** ** Where the claims as first stated fail *)

(** C7 as stated: an Authorize request whose scope is not supported,
    and which has no [state], is answered [invalid_request] for the
    missing parameter, not [invalid_scope]. *)
Lemma unsupported_scope_after_presence :
  let req := get [("scope", "bogus"); ("client_id", "cid"); ("response_type", "code");
                  ("redirect_uri", "https://app/cb")] in
  let rw := snd (Authorize (server ∅) freshWriter req) in
  Split (Get (Form req) "scope") = ["bogus"]
  /\ ~ supported "bogus"
  /\ status rw = Some StatusBadRequest
  /\ Body rw
     = [ErrorJSON InvalidRequest "The request is missing the required parameter: state"]
  /\ Body rw <> [ErrorJSON InvalidScope "Unsupported scope: bogus"].
Proof.
  intros req rw. split; [reflexivity|]. split.
  - intros [H|[H|[H|[H|[]]]]]; discriminate.
  - split; [reflexivity|]. split; [reflexivity|]. discriminate.
Qed.

(** C8 as stated: a Token request without [code] but with a wrong
    [client_id] is answered 401 [invalid_client], not 400
    [invalid_request]. *)
Lemma missing_code_after_client_check :
  let req := post [("client_id", "wrong"); ("client_secret", "secret");
                   ("grant_type", "authorization_code")] in
  let rw := snd (Token (server ∅) freshWriter req) in
  Get (Form req) "code" = ""
  /\ status rw = Some StatusUnauthorized
  /\ Body rw = [ErrorJSON InvalidClient "Invalid client id: wrong"]
  /\ Body rw
     <> [ErrorJSON InvalidRequest "The request is missing the required parameter: code"].
Proof.
  intros req rw. split; [reflexivity|]. split; [reflexivity|].
  split; [reflexivity|]. discriminate.
Qed.

(** C9 as stated: the 302 redirect of Authorize is sent without the
    no-cache headers. *)
Lemma authorize_redirect_without_no_cache :
  let rw := snd (Authorize (server ∅) freshWriter (authorizeRequest "openid profile" "abc")) in
  status rw = Some StatusFound
  /\ sentHeader rw "Location" = Some "https://app/cb?code=code-alice&state=abc"
  /\ sentHeader rw "Cache-Control" = None
  /\ ~ sentNoCache rw.
Proof.
  intros rw. split; [reflexivity|]. split; [reflexivity|]. split; [reflexivity|].
  intros [H _]. discriminate.
Qed.

End Checks.

(** * Further properties of the handlers *)

(** ** Definitions *)

(** The error kinds the handlers answer with, each with the statuses it
    is sent under. *)
Definition protocolErrors : list (string * Z) :=
  [(InvalidRequest, StatusBadRequest); (InvalidRequest, StatusUnauthorized);
   (InvalidClient, StatusUnauthorized); (InvalidGrant, StatusUnauthorized);
   (UnsupportedGrantType, StatusUnauthorized); (InvalidScope, StatusBadRequest);
   ("internal_server_error", StatusInternalServerError)].

(** [rw'] is [rw] after an error response whose kind and status are one
    of [pairs]. *)
Definition replyAmong (pairs : list (string * Z)) (rw rw' : ResponseWriter) : Prop :=
  exists error description code,
    rw' = errorResponse rw error description code /\ In (error, code) pairs.

(** The rejections of a request by its parameters: 400 and 401. *)
Definition rejections : list (string * Z) :=
  [(InvalidRequest, StatusBadRequest); (InvalidRequest, StatusUnauthorized);
   (InvalidClient, StatusUnauthorized); (InvalidGrant, StatusUnauthorized);
   (UnsupportedGrantType, StatusUnauthorized); (InvalidScope, StatusBadRequest)].

(** The internal errors: 500. *)
Definition internalErrors : list (string * Z) :=
  [("internal_server_error", StatusInternalServerError)].

(** One response, complete: the status line went out with the headers
    the writer holds, and at most one body was written. *)
Definition respondedOnce (rw : ResponseWriter) : Prop :=
  exists code, Sent rw = Some (code, RwHeader rw) /\ (length (Body rw) <= 1)%nat.

(** [strings.Join(l, " ")]. *)
Fixpoint Join (l : list string) : string :=
  match l with
  | [] => ""
  | [x] => x
  | x :: rest => x +:+ " " +:+ Join rest
  end.

(** The string has no space in it. *)
Fixpoint spaceless (s : string) : Prop :=
  match s with
  | EmptyString => True
  | String c rest => c <> " "%char /\ spaceless rest
  end.

Section MoreRequests.

Context {T : CollaboratorTypes} {C : Collaborators T}.

(** An Authorize request that passes every check of the handler. *)
Definition authorizes (m : MockOIDC) (req : Request) : Prop :=
  ParseForm req = None
  /\ Forall (present req) ["scope"; "state"; "client_id"; "response_type"; "redirect_uri"]
  /\ Forall supported (Split (Get (Form req) "scope"))
  /\ Get (Form req) "client_id" = ClientID m
  /\ Get (Form req) "response_type" = "code".

End MoreRequests.

(** ** Every answer of a handler *)

Lemma replyAmong_intro (pairs : list (string * Z)) (rw : ResponseWriter)
    (error description : string) (code : Z) :
  In (error, code) pairs -> replyAmong pairs rw (errorResponse rw error description code).
Proof. intros Hin. exists error, description, code. auto. Qed.

Lemma replyAmong_incl (ps qs : list (string * Z)) (rw rw' : ResponseWriter) :
  incl ps qs -> replyAmong ps rw rw' -> replyAmong qs rw rw'.
Proof.
  intros Hincl (error & description & code & Heq & Hin).
  exists error, description, code. auto.
Qed.

Lemma rejections_protocol : incl rejections protocolErrors.
Proof.
  intros p Hin. unfold rejections, protocolErrors in *. simpl in *. intuition.
Qed.

Lemma internal_protocol : incl internalErrors protocolErrors.
Proof.
  intros p Hin. unfold internalErrors, protocolErrors in *. simpl in *. intuition.
Qed.

(** Closes a goal [replyAmong pairs rw (errorResponse ...)] for one of
    the lists above. *)
Ltac among :=
  first [apply replyAmong_intro | unfold internalServerError; apply replyAmong_intro];
  cbv [In rejections internalErrors protocolErrors];
  repeat (first [left; reflexivity | right]).

Lemma assertPresence_among (params : list string) (rw : ResponseWriter) (req : Request) :
  assertPresence params rw req = (true, rw)
  \/ exists rw', assertPresence params rw req = (false, rw') /\ replyAmong rejections rw rw'.
Proof.
  induction params as [|p ps IH]; simpl; [now left|].
  destruct (String.eqb (Get (Form req) p) ""); cbn [negb]; [|exact IH].
  right. eexists. split; [reflexivity|among].
Qed.

Lemma assertEqual_among (param value errorType errorMsg : string)
    (rw : ResponseWriter) (req : Request) :
  In (errorType, StatusUnauthorized) rejections ->
  assertEqual param value errorType errorMsg rw req = (true, rw)
    /\ Get (Form req) param = value
  \/ exists rw',
       assertEqual param value errorType errorMsg rw req = (false, rw')
       /\ replyAmong rejections rw rw'.
Proof.
  intros Hin. rewrite assertEqual_eq.
  destruct (String.eqb_spec value (Get (Form req) param)) as [He|Hne]; [left; auto|].
  right. eexists. split; [reflexivity|]. now apply replyAmong_intro.
Qed.

Lemma checkScopes_among (allowed : gset string) (scopes : list string)
    (rw : ResponseWriter) :
  checkScopes allowed scopes rw = (true, rw)
  \/ exists rw', checkScopes allowed scopes rw = (false, rw') /\ replyAmong rejections rw rw'.
Proof.
  induction scopes as [|sc scs IH]; simpl; [now left|].
  destruct (bool_decide (sc ∈ allowed)); cbn [negb]; [exact IH|].
  right. eexists. split; [reflexivity|among].
Qed.

Lemma validateScope_among (rw : ResponseWriter) (req : Request) :
  validateScope rw req = (true, rw)
  \/ exists rw', validateScope rw req = (false, rw') /\ replyAmong rejections rw rw'.
Proof. apply checkScopes_among. Qed.

Lemma invalidClient_rejection : In (InvalidClient, StatusUnauthorized) rejections.
Proof. cbv [In rejections]. auto 10. Qed.

Lemma unsupportedGrantType_rejection :
  In (UnsupportedGrantType, StatusUnauthorized) rejections.
Proof. cbv [In rejections]. auto 10. Qed.

Section MoreFlows.

Context {T : CollaboratorTypes} {C : Collaborators T}.

Implicit Types (m : MockOIDC) (rw : ResponseWriter) (req : Request) (s : Session).

Lemma authorizeToken_among m (t : string) rw :
  (exists token, authorizeToken m t rw = (Some token, rw))
  \/ exists rw', authorizeToken m t rw = (None, rw') /\ replyAmong protocolErrors rw rw'.
Proof.
  unfold authorizeToken.
  destruct (VerifyJWT (Keys m) t) as [token|err];
    [|right; eexists; split; [reflexivity|among]].
  destruct (TokenClaims token) as [claims|];
    [|right; eexists; split; [reflexivity|among]].
  destruct (claims !! "exp") as [[exp| | | |]|];
    try (right; eexists; split; [reflexivity|among]).
  destruct (Unix (Now m) >? int64 exp).
  - right; eexists; split; [reflexivity|among].
  - left. eauto.
Qed.

Lemma authorizeBearer_among m rw req :
  (exists token, authorizeBearer m rw req = (Some token, rw))
  \/ exists rw', authorizeBearer m rw req = (None, rw') /\ replyAmong protocolErrors rw rw'.
Proof.
  unfold authorizeBearer.
  destruct (SplitN2 (Get (Header req) "Authorization")) as [|scheme [|t [|? ?]]];
    try (right; eexists; split; [reflexivity|among]).
  destruct (String.eqb scheme "Bearer"); cbn [negb];
    [|right; eexists; split; [reflexivity|among]].
  apply authorizeToken_among.
Qed.

Lemma validateTokenParams_among m rw req :
  validateTokenParams m rw req = (true, rw)
  \/ exists rw', validateTokenParams m rw req = (false, rw') /\ replyAmong rejections rw rw'.
Proof.
  unfold validateTokenParams.
  destruct (assertPresence_among ["client_id"; "client_secret"; "grant_type"] rw req)
    as [->|(rw1 & -> & Hr)]; cbn [negb]; [|right; eauto].
  destruct (assertEqual_among "client_id" (ClientID m) InvalidClient "Invalid client id"
              rw req invalidClient_rejection) as [[-> _]|(rw2 & -> & Hr)];
    cbn [negb]; [|right; eauto].
  destruct (assertEqual_among "client_secret" (ClientSecret m) InvalidClient
              "Invalid client secret" rw req invalidClient_rejection)
    as [[-> _]|(rw3 & -> & Hr)]; cbn [negb]; [|right; eauto].
  now left.
Qed.

Lemma validateCodeGrant_among m rw req :
  (exists m' s, validateCodeGrant m rw req = (m', rw, Some s))
  \/ exists rw', validateCodeGrant m rw req = (m, rw', None) /\ replyAmong rejections rw rw'.
Proof.
  unfold validateCodeGrant.
  destruct (assertPresence_among ["code"] rw req) as [->|(rw1 & -> & Hr)];
    cbn [negb]; [|right; eauto].
  destruct (assertEqual_among "grant_type" "authorization_code" UnsupportedGrantType
              "Invalid grant type" rw req unsupportedGrantType_rejection)
    as [[-> _]|(rw2 & -> & Hr)]; cbn [negb]; [|right; eauto].
  destruct (GetSessionByID (SessionStore m) (Get (Form req) "code")) as [s|err];
    [|right; eexists; split; [reflexivity|among]].
  destruct (Granted s); [right; eexists; split; [reflexivity|among]|].
  left. eauto.
Qed.

Lemma validateRefreshGrant_among m rw req :
  (exists s, validateRefreshGrant m rw req = (m, rw, Some s))
  \/ exists rw',
       validateRefreshGrant m rw req = (m, rw', None) /\ replyAmong protocolErrors rw rw'.
Proof.
  unfold validateRefreshGrant.
  destruct (assertPresence_among ["refresh_token"] rw req) as [->|(rw1 & -> & Hr)];
    cbn [negb]; [|right; eauto using replyAmong_incl, rejections_protocol].
  destruct (assertEqual_among "grant_type" "refresh_token" UnsupportedGrantType
              "Invalid grant type" rw req unsupportedGrantType_rejection)
    as [[-> _]|(rw2 & -> & Hr)]; cbn [negb];
    [|right; eauto using replyAmong_incl, rejections_protocol].
  destruct (authorizeToken_among m (Get (Form req) "refresh_token") rw)
    as [(token & ->)|(rw3 & -> & Hr)]; [|right; eauto].
  destruct (GetSessionByToken (SessionStore m) token) as [s|err].
  - left. eauto.
  - right. eexists. split; [reflexivity|among].
Qed.

(** A handler's answer, as the client sees its kind: a JSON body with
    status 200, an error response of a known kind and status, or the
    redirect. *)
Inductive Answer (rw : ResponseWriter) (req : Request) : ResponseWriter -> Prop :=
| AnswerJSON data : Answer rw req (jsonResponse rw data)
| AnswerTokens tr : Answer rw req (jsonResponse (noCache rw) (TokenJSON tr))
| AnswerError rw' : replyAmong protocolErrors rw rw' -> Answer rw req rw'
| AnswerRedirect target : Answer rw req (Redirect rw req target StatusFound).

Lemma respondTokens_answer m rw req s (grantType : string) :
  Answer rw req (respondTokens m rw req s grantType).
Proof.
  unfold respondTokens.
  destruct (setTokens m (newTokenResponse m req) s grantType) as [[tr minted]|err].
  - apply AnswerTokens.
  - apply AnswerError. among.
Qed.

Lemma Token_answer m rw req : Answer rw req (snd (Token m rw req)).
Proof.
  unfold Token.
  destruct (ParseForm req) as [err|]; [cbn [snd]; apply AnswerError; among|].
  destruct (validateTokenParams_among m rw req) as [->|(rw1 & -> & Hr)];
    cbn [negb snd];
    [|apply AnswerError; eauto using replyAmong_incl, rejections_protocol].
  destruct (String.eqb (Get (Form req) "grant_type") "authorization_code").
  - destruct (validateCodeGrant_among m rw req) as [(m' & s & ->)|(rw2 & -> & Hr)];
      cbn [snd]; [apply respondTokens_answer|].
    apply AnswerError; eauto using replyAmong_incl, rejections_protocol.
  - destruct (String.eqb (Get (Form req) "grant_type") "refresh_token").
    + destruct (validateRefreshGrant_among m rw req) as [(s & ->)|(rw2 & -> & Hr)];
        cbn [snd]; [apply respondTokens_answer|now apply AnswerError].
    + cbn [snd]. apply AnswerError. among.
Qed.

Lemma Authorize_answer m rw req : Answer rw req (snd (Authorize m rw req)).
Proof.
  unfold Authorize.
  destruct (ParseForm req) as [err|]; [cbn [snd]; apply AnswerError; among|].
  destruct (assertPresence_among
              ["scope"; "state"; "client_id"; "response_type"; "redirect_uri"] rw req)
    as [->|(rw1 & -> & Hr)]; cbn [negb snd];
    [|apply AnswerError; eauto using replyAmong_incl, rejections_protocol].
  destruct (validateScope_among rw req) as [->|(rw1 & -> & Hr)]; cbn [negb snd];
    [|apply AnswerError; eauto using replyAmong_incl, rejections_protocol].
  destruct (assertEqual_among "client_id" (ClientID m) InvalidClient "Invalid client id"
              rw req invalidClient_rejection) as [[-> _]|(rw1 & -> & Hr)];
    cbn [negb snd];
    [|apply AnswerError; eauto using replyAmong_incl, rejections_protocol].
  destruct (assertEqual_among "response_type" "code" UnsupportedGrantType
              "Invalid response type" rw req unsupportedGrantType_rejection)
    as [[-> _]|(rw1 & -> & Hr)]; cbn [negb snd];
    [|apply AnswerError; eauto using replyAmong_incl, rejections_protocol].
  destruct (Pop (Users m)) as [user queue].
  destruct (NewSession _ _ _ user) as [[s store]|err]; cbn [snd];
    [|apply AnswerError; among].
  destruct (urlParse (Get (Form req) "redirect_uri")) as [u|err]; cbn [snd].
  - apply AnswerRedirect.
  - apply AnswerError. among.
Qed.

Lemma Userinfo_answer m rw req : Answer rw req (snd (Userinfo m rw req)).
Proof.
  unfold Userinfo.
  destruct (authorizeBearer_among m rw req) as [(token & ->)|(rw' & -> & Hr)];
    [|cbn [snd]; now apply AnswerError].
  destruct (GetSessionByToken (SessionStore m) token) as [s|err];
    [|cbn [snd]; apply AnswerError; among].
  destruct (UserUserinfo (SessionUser s) (Scopes s)) as [resp|err]; cbn [snd].
  - apply AnswerJSON.
  - apply AnswerError. among.
Qed.

Lemma JWKS_answer m rw req : Answer rw req (snd (JWKS m rw req)).
Proof.
  unfold JWKS. destruct (KeypairJWKS (Keys m)) as [jwks|err]; cbn [snd].
  - apply AnswerJSON.
  - apply AnswerError. among.
Qed.

Lemma Discovery_answer m rw req : Answer rw req (snd (Discovery m rw req)).
Proof. unfold Discovery. cbn [snd]. apply AnswerJSON. Qed.

End MoreFlows.

(** ** What a client can receive *)

(** The response is a 200 with one JSON body, an error of a known kind
    under one of its statuses with the JSON error body, or a 302 with a
    [Location]. *)
Definition wellFormedAnswer (rw : ResponseWriter) : Prop :=
  (exists data,
     status rw = Some StatusOK /\ Body rw = [data]
     /\ sentHeader rw "Content-Type" = Some applicationJSON)
  \/ (exists kind description code,
        In (kind, code) protocolErrors
        /\ status rw = Some code /\ Body rw = [ErrorJSON kind description]
        /\ sentHeader rw "Content-Type" = Some applicationJSON)
  \/ (status rw = Some StatusFound /\ is_Some (sentHeader rw "Location")).

Section Answers.

Context {T : CollaboratorTypes} {C : Collaborators T}.

Implicit Types (m : MockOIDC) (rw : ResponseWriter) (req : Request) (s : Session).

Lemma Redirect_fresh req (target : string) :
  status (Redirect freshWriter req target StatusFound) = Some StatusFound
  /\ sentHeader (Redirect freshWriter req target StatusFound) "Location"
     = Some (location req target)
  /\ respondedOnce (Redirect freshWriter req target StatusFound).
Proof.
  destruct (Redirect_sent freshWriter req target StatusFound eq_refl) as (Hst & Hloc & _).
  split; [assumption|]. split; [assumption|].
  assert (bool_decide (is_Some ((∅ : gmap string string) !! "Content-Type")) = false)
    as Hct by (apply bool_decide_eq_false_2; rewrite lookup_empty; apply is_Some_None).
  unfold respondedOnce, Redirect. cbn [RwHeader freshWriter]. rewrite Hct. cbn [negb andb].
  destruct (String.eqb (Method req) "GET"); cbn [orb];
    try destruct (String.eqb (Method req) "HEAD");
    eexists; (split; [reflexivity|simpl; lia]).
Qed.

Lemma Answer_wellFormed req rw' :
  Answer freshWriter req rw' -> wellFormedAnswer rw' /\ respondedOnce rw'.
Proof.
  intros [data|tr|rw1 (kind & description & code & -> & Hin)|target].
  - split; [left; exists data|exists StatusOK]; repeat split; simpl; lia.
  - split; [left; exists (TokenJSON tr)|exists StatusOK]; repeat split; simpl; lia.
  - split; [right; left; exists kind, description, code|exists code];
      repeat split; simpl; (assumption || lia).
  - destruct (Redirect_fresh req target) as (Hst & Hloc & Honce).
    split; [|assumption]. right. right. split; [assumption|]. rewrite Hloc. eauto.
Qed.

(** X1. Whatever the request, each of the five handlers answers a
    fresh writer with a 200 and one JSON body, or with the JSON error
    body of one of six kinds under a status that goes with the kind
    ([invalid_request] 400 or 401, [invalid_client], [invalid_grant]
    and [unsupported_grant_type] 401, [invalid_scope] 400,
    [internal_server_error] 500), or with a 302 that carries a
    [Location]; all but the redirect are sent as [application/json]. *)
Theorem handlers_answer_well_formed m req :
  wellFormedAnswer (snd (Authorize m freshWriter req))
  /\ wellFormedAnswer (snd (Token m freshWriter req))
  /\ wellFormedAnswer (snd (Userinfo m freshWriter req))
  /\ wellFormedAnswer (snd (Discovery m freshWriter req))
  /\ wellFormedAnswer (snd (JWKS m freshWriter req)).
Proof.
  repeat split; eapply Answer_wellFormed;
    [apply Authorize_answer|apply Token_answer|apply Userinfo_answer
    |apply Discovery_answer|apply JWKS_answer].
Qed.

(** X2. Each handler answers exactly once: whatever the request, when
    it returns the status line has been written, no header was edited
    after it (the headers sent are the ones the writer holds), and at
    most one body was written. *)
Theorem handlers_respond_once m req :
  respondedOnce (snd (Authorize m freshWriter req))
  /\ respondedOnce (snd (Token m freshWriter req))
  /\ respondedOnce (snd (Userinfo m freshWriter req))
  /\ respondedOnce (snd (Discovery m freshWriter req))
  /\ respondedOnce (snd (JWKS m freshWriter req)).
Proof.
  repeat split; eapply Answer_wellFormed;
    [apply Authorize_answer|apply Token_answer|apply Userinfo_answer
    |apply Discovery_answer|apply JWKS_answer].
Qed.

End Answers.

(** ** Authorize *)

Section AuthorizeFlow.

Context {T : CollaboratorTypes} {C : Collaborators T}.

Implicit Types (m : MockOIDC) (rw : ResponseWriter) (req : Request) (s : Session).

(** Authorize up to the creation of the session, for a request that
    passes every check. *)
Lemma Authorize_valid m rw req (user : User) (queue : UserQueue) :
  authorizes m req -> Pop (Users m) = (user, queue) ->
  Authorize m rw req
  = match NewSession (SessionStore m) (Get (Form req) "scope") (Get (Form req) "nonce") user
    with
    | Err err => (withUsers queue m, internalServerError rw err)
    | Ok (session, store) =>
        match urlParse (Get (Form req) "redirect_uri") with
        | Err err => (withStore store (withUsers queue m), internalServerError rw err)
        | Ok redirectURI =>
            (withStore store (withUsers queue m),
             Redirect rw req
               (withCodeAndState redirectURI (SessionID session) (Get (Form req) "state"))
               StatusFound)
        end
    end.
Proof.
  intros (Hparse & Hall & Hscopes & Hid & Htype) Hpop. unfold Authorize.
  rewrite Hparse, assertPresence_present by assumption. cbn [negb].
  rewrite validateScope_supported by assumption. cbn [negb].
  rewrite (assertEqual_match "client_id") by assumption. cbn [negb].
  rewrite (assertEqual_match "response_type") by assumption. cbn [negb].
  rewrite Hpop. cbn [SessionStore withUsers].
  destruct (NewSession _ _ _ user) as [[session store]|err]; reflexivity.
Qed.

(** X3. Authorize checks the client and the response type after the
    parameters and the scopes. A request whose form parses, with all
    five parameters and supported scopes: when [client_id] is not the
    configured one it is answered 401 [invalid_client] with the
    submitted id in the description; when [client_id] is right and
    [response_type] is not [code], 401 [unsupported_grant_type] with
    the submitted type. In both cases no user leaves the queue and no
    session is created: the server is as it was. *)
Theorem Authorize_rejects_client_and_response_type m rw req :
  ParseForm req = None ->
  Forall (present req) ["scope"; "state"; "client_id"; "response_type"; "redirect_uri"] ->
  Forall supported (Split (Get (Form req) "scope")) ->
  (Get (Form req) "client_id" <> ClientID m ->
   Authorize m rw req
   = (m, errorResponse rw InvalidClient
           ("Invalid client id: " +:+ Get (Form req) "client_id") StatusUnauthorized))
  /\ (Get (Form req) "client_id" = ClientID m ->
      Get (Form req) "response_type" <> "code" ->
      Authorize m rw req
      = (m, errorResponse rw UnsupportedGrantType
              ("Invalid response type: " +:+ Get (Form req) "response_type")
              StatusUnauthorized)).
Proof.
  intros Hparse Hall Hscopes. split.
  - intros Hid. unfold Authorize.
    rewrite Hparse, assertPresence_present by assumption. cbn [negb].
    rewrite validateScope_supported by assumption. cbn [negb].
    rewrite (assertEqual_mismatch "client_id") by assumption. reflexivity.
  - intros Hid Htype. unfold Authorize.
    rewrite Hparse, assertPresence_present by assumption. cbn [negb].
    rewrite validateScope_supported by assumption. cbn [negb].
    rewrite (assertEqual_match "client_id") by assumption. cbn [negb].
    rewrite (assertEqual_mismatch "response_type") by assumption. reflexivity.
Qed.

(** X4. The redirect of Authorize. For a request that passes every
    check, when the store creates the session and [redirect_uri]
    parses: one user has left the queue, the store is the one that
    holds the new session, and the answer to a fresh writer is a 302
    whose [Location] is derived from the redirect URI with [code] set
    to the identifier of the new session and [state] to the submitted
    state. *)
Theorem Authorize_redirects_with_code m req (user : User) (queue : UserQueue)
    s (store : gmap string Session) (redirectURI : URL) :
  authorizes m req -> Pop (Users m) = (user, queue) ->
  NewSession (SessionStore m) (Get (Form req) "scope") (Get (Form req) "nonce") user
  = Ok (s, store) ->
  urlParse (Get (Form req) "redirect_uri") = Ok redirectURI ->
  let target := withCodeAndState redirectURI (SessionID s) (Get (Form req) "state") in
  fst (Authorize m freshWriter req) = withStore store (withUsers queue m)
  /\ status (snd (Authorize m freshWriter req)) = Some StatusFound
  /\ sentHeader (snd (Authorize m freshWriter req)) "Location" = Some (location req target).
Proof.
  intros Hreq Hpop Hnew Hurl target.
  rewrite (Authorize_valid m freshWriter req user queue Hreq Hpop), Hnew, Hurl.
  cbn [fst snd]. split; [reflexivity|].
  destruct (Redirect_sent freshWriter req target StatusFound eq_refl) as (Hst & Hloc & _).
  auto.
Qed.

(** X5. What Authorize has done when it answers 500. For a request
    that passes every check: when the store fails to create the
    session, the user taken from the queue is gone all the same; when
    the session is created and [redirect_uri] does not parse, the
    answer is the parse error as a 500 and the server keeps the user
    queue without that user and the store with the new session. *)
Theorem Authorize_internal_error_keeps_effects m rw req (user : User) (queue : UserQueue) :
  authorizes m req -> Pop (Users m) = (user, queue) ->
  (forall err : string,
     NewSession (SessionStore m) (Get (Form req) "scope") (Get (Form req) "nonce") user
     = Err err ->
     Authorize m rw req = (withUsers queue m, internalServerError rw err))
  /\ (forall s (store : gmap string Session) (err : string),
        NewSession (SessionStore m) (Get (Form req) "scope") (Get (Form req) "nonce") user
        = Ok (s, store) ->
        urlParse (Get (Form req) "redirect_uri") = Err err ->
        Authorize m rw req
        = (withStore store (withUsers queue m), internalServerError rw err)).
Proof.
  intros Hreq Hpop. split.
  - intros err Hnew. now rewrite (Authorize_valid m rw req user queue Hreq Hpop), Hnew.
  - intros s store err Hnew Hurl.
    now rewrite (Authorize_valid m rw req user queue Hreq Hpop), Hnew, Hurl.
Qed.

End AuthorizeFlow.

(** ** Token and Userinfo *)

Section TokenRejections.

Context {T : CollaboratorTypes} {C : Collaborators T}.

Implicit Types (m : MockOIDC) (rw : ResponseWriter) (req : Request) (s : Session).

(** X6. The client check of Token. A request whose form parses, with
    [client_id], [client_secret] and [grant_type]: when [client_id] is
    not the configured one it is answered 401 [invalid_client] naming
    the submitted id, whatever the secret; when the id is right and
    [client_secret] is not the configured one, 401 [invalid_client]
    with the submitted secret in the description. The server is left
    as it was. *)
Theorem Token_rejects_wrong_client m rw req :
  ParseForm req = None ->
  Forall (present req) ["client_id"; "client_secret"; "grant_type"] ->
  (Get (Form req) "client_id" <> ClientID m ->
   Token m rw req
   = (m, errorResponse rw InvalidClient
           ("Invalid client id: " +:+ Get (Form req) "client_id") StatusUnauthorized))
  /\ (Get (Form req) "client_id" = ClientID m ->
      Get (Form req) "client_secret" <> ClientSecret m ->
      Token m rw req
      = (m, errorResponse rw InvalidClient
              ("Invalid client secret: " +:+ Get (Form req) "client_secret")
              StatusUnauthorized)).
Proof.
  intros Hparse Hall. split.
  - intros Hid. unfold Token, validateTokenParams.
    rewrite Hparse, assertPresence_present by assumption. cbn [negb].
    rewrite (assertEqual_mismatch "client_id") by assumption. reflexivity.
  - intros Hid Hsec. unfold Token, validateTokenParams.
    rewrite Hparse, assertPresence_present by assumption. cbn [negb].
    rewrite (assertEqual_match "client_id") by assumption. cbn [negb].
    rewrite (assertEqual_mismatch "client_secret") by assumption. reflexivity.
Qed.

Lemma Token_refresh_dispatch m rw req (t : string) :
  refreshes m req t ->
  Token m rw req
  = match authorizeToken m t rw with
    | (None, rw') => (m, rw')
    | (Some token, rw') =>
        match GetSessionByToken (SessionStore m) token with
        | Err _ =>
            (m, errorResponse rw' InvalidGrant "Invalid refresh token" StatusUnauthorized)
        | Ok session => (m, respondTokens m rw' req session "refresh_token")
        end
    end.
Proof.
  intros (Hauth & Hgt & Ht & Hne). unfold Token.
  rewrite (proj1 Hauth).
  rewrite validateTokenParams_ok by (auto; unfold present; rewrite Hgt; discriminate).
  cbn [negb]. rewrite Hgt. cbn [String.eqb Ascii.eqb Bool.eqb].
  unfold validateRefreshGrant.
  rewrite (assertPresence_present ["refresh_token"])
    by (repeat constructor; unfold present; congruence).
  cbn [negb]. rewrite (assertEqual_match "grant_type") by assumption.
  cbn [negb]. rewrite Ht.
  destruct (authorizeToken m t rw) as [[token|] rw']; [|reflexivity].
  destruct (GetSessionByToken (SessionStore m) token); reflexivity.
Qed.

(** X7. How a refresh grant is refused. For a request with the client's
    credentials, [grant_type=refresh_token] and a refresh token [t]:
    when [t] does not verify, the answer is 401 [invalid_request] with
    the verifier's error in the description; when it verifies with a
    numeric [exp] whose integer part is before the clock's second, 401
    [invalid_request], [The token is expired]; when it verifies, is
    not expired, and the store finds no session for it, 401
    [invalid_grant], [Invalid refresh token]. The server is left as it
    was in each case. *)
Theorem refresh_grant_rejections m rw req (t : string) :
  refreshes m req t ->
  (forall err : string,
     VerifyJWT (Keys m) t = Err err ->
     Token m rw req
     = (m, errorResponse rw InvalidRequest ("Invalid token: " +:+ err) StatusUnauthorized))
  /\ (forall (token : JwtToken) (claims : gmap string ClaimValue) (exp : spec_float),
        VerifyJWT (Keys m) t = Ok token -> TokenClaims token = MapClaims claims ->
        claims !! "exp" = Some (VFloat64 exp) -> int64 exp < Unix (Now m) ->
        Token m rw req
        = (m, errorResponse rw InvalidRequest "The token is expired" StatusUnauthorized))
  /\ (forall (token : JwtToken) (err : string),
        unexpired m t token -> GetSessionByToken (SessionStore m) token = Err err ->
        Token m rw req
        = (m, errorResponse rw InvalidGrant "Invalid refresh token" StatusUnauthorized)).
Proof.
  intros Hreq. rewrite (Token_refresh_dispatch m rw req t Hreq). split; [|split].
  - intros err Hv. unfold authorizeToken. now rewrite Hv.
  - intros token claims exp Hv Hc Hexp Hlt. unfold authorizeToken. rewrite Hv, Hc, Hexp.
    destruct (Z.gtb_spec (Unix (Now m)) (int64 exp)); [reflexivity|lia].
  - intros token err Hu Hs. rewrite (authorizeToken_unexpired m t token) by assumption.
    now rewrite Hs.
Qed.

(** X8. Userinfo. With [Authorization: Bearer t] for a token [t] that
    verifies and is not expired: when the store finds the session of
    the token, the answer is what the session's user gives for the
    session's scopes, as a 200, or that call's error as a 500, whether
    or not the session is granted; when the store finds no session,
    the answer is the store's error as a 500, not a 401. *)
Theorem Userinfo_answers m rw req (t : string) (token : JwtToken) :
  Get (Header req) "Authorization" = "Bearer " +:+ t ->
  unexpired m t token ->
  (forall s (resp : string),
     GetSessionByToken (SessionStore m) token = Ok s ->
     UserUserinfo (SessionUser s) (Scopes s) = Ok resp ->
     Userinfo m rw req = (m, jsonResponse rw (RawJSON resp)))
  /\ (forall s (err : string),
        GetSessionByToken (SessionStore m) token = Ok s ->
        UserUserinfo (SessionUser s) (Scopes s) = Err err ->
        Userinfo m rw req = (m, internalServerError rw err))
  /\ (forall err : string,
        GetSessionByToken (SessionStore m) token = Err err ->
        Userinfo m rw req = (m, internalServerError rw err)).
Proof.
  intros Hh Hu. unfold Userinfo.
  rewrite (authorizeBearer_header m rw req t Hh), (authorizeToken_unexpired m t token rw Hu).
  split; [|split].
  - intros s resp Hs Hinfo. now rewrite Hs, Hinfo.
  - intros s err Hs Hinfo. now rewrite Hs, Hinfo.
  - intros err Hs. now rewrite Hs.
Qed.

End TokenRejections.

(** ** Strings: splitting at spaces *)

Lemma cutAt_Some (sep : ascii) (s a b : string) :
  cutAt sep s = Some (a, b) -> s = a +:+ String sep b.
Proof.
  revert a. induction s as [|c s IH]; intros a; simpl; [discriminate|].
  destruct (Ascii.eqb_spec c sep) as [->|Hne].
  - intros [= <- <-]. reflexivity.
  - destruct (cutAt sep s) as [[a' b']|]; [|discriminate].
    intros [= <- <-]. rewrite (IH a' eq_refl) at 1. reflexivity.
Qed.

Lemma Split_nonempty (s : string) : Split s <> [].
Proof.
  induction s as [|c s IH]; simpl; [discriminate|].
  destruct (Ascii.eqb c " "); [discriminate|].
  destruct (Split s); [contradiction|discriminate].
Qed.

(** Splitting a text with a space in it splits both sides of the space. *)
Lemma Split_app_space (a b : string) :
  Split (a +:+ String " " b) = (Split a ++ Split b)%list.
Proof.
  induction a as [|c a IH]; simpl; [reflexivity|].
  destruct (Ascii.eqb c " "); rewrite IH; [reflexivity|].
  pose proof (Split_nonempty a) as Hne.
  destruct (Split a); [contradiction|reflexivity].
Qed.

Lemma Split_spaceless (s : string) : spaceless s -> Split s = [s].
Proof.
  induction s as [|c s IH]; simpl; [reflexivity|].
  intros [Hc Hs]. destruct (Ascii.eqb_spec c " "); [contradiction|].
  now rewrite IH.
Qed.

(** Splitting undoes joining, for pieces without a space. *)
Lemma Split_Join (l : list string) :
  l <> [] -> Forall spaceless l -> Split (Join l) = l.
Proof.
  intros Hne Hall. induction Hall as [|x rest Hx Hrest IH]; [contradiction|].
  destruct rest as [|y rest].
  - simpl. now apply Split_spaceless.
  - change (Join (x :: y :: rest)) with (x +:+ String " " (Join (y :: rest))).
    rewrite Split_app_space, Split_spaceless by assumption.
    rewrite IH by discriminate. reflexivity.
Qed.

Lemma checkScopes_rejects (allowed : gset string) (scopes : list string) (bad : string)
    (rw : ResponseWriter) :
  In bad scopes -> bad ∉ allowed -> fst (checkScopes allowed scopes rw) = false.
Proof.
  intros Hin Hbad. induction scopes as [|sc scs IH]; simpl in *; [contradiction|].
  destruct (bool_decide (sc ∈ allowed)) eqn:Hd; cbn [negb]; [|reflexivity].
  destruct Hin as [->|Hin]; [|now apply IH].
  apply bool_decide_eq_true in Hd. contradiction.
Qed.

Lemma validateScope_rejects (rw : ResponseWriter) (req : Request) (bad : string) :
  In bad (Split (Get (Form req) "scope")) -> ~ supported bad ->
  fst (validateScope rw req) = false.
Proof.
  intros Hin Hbad. unfold validateScope. apply (checkScopes_rejects _ _ bad); [assumption|].
  intros Hal. now apply allowed_supported in Hal.
Qed.

Lemma empty_unsupported : ~ supported "".
Proof. intros [H|[H|[H|[H|[]]]]]; discriminate. Qed.

(** ** Validators at their edges *)

(** X9. [assertEqual] decides equality of the form value and the
    expected value, byte for byte: it passes, leaving the writer
    alone, exactly when they are the same string, and otherwise
    answers 401 with the caller's kind and the caller's message
    followed by the submitted value. *)
Theorem assertEqual_decides_equality (param value errorType errorMsg : string)
    (rw : ResponseWriter) (req : Request) :
  Get (Form req) param = value
    /\ assertEqual param value errorType errorMsg rw req = (true, rw)
  \/ Get (Form req) param <> value
     /\ assertEqual param value errorType errorMsg rw req
        = (false,
           errorResponse rw errorType (errorMsg +:+ ": " +:+ Get (Form req) param)
             StatusUnauthorized).
Proof.
  rewrite assertEqual_eq.
  destruct (String.eqb_spec value (Get (Form req) param)) as [He|Hne]; [left|right]; auto.
Qed.

(** X10. The scope parameter is split at every single space and not
    trimmed: an empty scope, a scope that starts or ends with a space,
    and a scope with two spaces in a row each contain the empty scope,
    which is not supported, so the scope check fails; for the empty
    parameter the error names the empty scope. *)
Theorem scope_stray_space_rejected (rw : ResponseWriter) (req : Request) :
  (Get (Form req) "scope" = ""
   \/ (exists b, Get (Form req) "scope" = " " +:+ b)
   \/ (exists a, Get (Form req) "scope" = a +:+ " ")
   \/ (exists a b, Get (Form req) "scope" = a +:+ "  " +:+ b)) ->
  fst (validateScope rw req) = false
  /\ (Get (Form req) "scope" = "" ->
      validateScope rw req
      = (false, errorResponse rw InvalidScope "Unsupported scope: " StatusBadRequest)).
Proof.
  intros Hcases. split.
  - apply (validateScope_rejects rw req ""); [|apply empty_unsupported].
    destruct Hcases as [->|[(b & ->)|[(a & ->)|(a & b & ->)]]].
    + left. reflexivity.
    + left. reflexivity.
    + change (a +:+ " ") with (a +:+ String " " ""). rewrite Split_app_space.
      apply in_or_app. right. left. reflexivity.
    + change (a +:+ "  " +:+ b) with (a +:+ String " " (String " " b)).
      rewrite Split_app_space. apply in_or_app. right. left. reflexivity.
  - intros Hempty. unfold validateScope. rewrite Hempty. reflexivity.
Qed.

Section MoreValidators.

Context {T : CollaboratorTypes} {C : Collaborators T}.

Implicit Types (m : MockOIDC) (rw : ResponseWriter) (req : Request) (s : Session).

(** X11. The [Authorization] header must be [Bearer], one space, and
    the token: a header of any other form (none at all, no space, or
    another scheme before the first space, [bearer] in lower case
    included) is answered 401 [invalid_request], [Invalid
    authorization header], whatever the key pair would say of it. *)
Theorem bearer_header_format m rw req :
  (forall t : string, Get (Header req) "Authorization" <> "Bearer " +:+ t) ->
  authorizeBearer m rw req
  = (None,
     errorResponse rw InvalidRequest "Invalid authorization header" StatusUnauthorized).
Proof.
  intros Hform. unfold authorizeBearer, SplitN2.
  destruct (cutAt " " (Get (Header req) "Authorization")) as [[scheme t]|] eqn:Hcut;
    [|reflexivity].
  destruct (String.eqb_spec scheme "Bearer") as [->|Hne]; cbn [negb]; [|reflexivity].
  apply cutAt_Some in Hcut. now destruct (Hform t).
Qed.

(** X12. A bearer token is good up to and including the second of its
    [exp]: for a token that verifies with a numeric [exp] claim, the
    authorizer accepts it, writing nothing, exactly when the clock's
    Unix second is not after [int64(exp)]. *)
Theorem token_accepted_until_exp m (t : string) rw (token : JwtToken)
    (claims : gmap string ClaimValue) (exp : spec_float) :
  VerifyJWT (Keys m) t = Ok token ->
  TokenClaims token = MapClaims claims ->
  claims !! "exp" = Some (VFloat64 exp) ->
  (authorizeToken m t rw = (Some token, rw) <-> Unix (Now m) <= int64 exp)
  /\ (Unix (Now m) = int64 exp -> authorizeToken m t rw = (Some token, rw)).
Proof.
  intros Hv Hc Hexp.
  assert (authorizeToken m t rw = (Some token, rw) <-> Unix (Now m) <= int64 exp) as Hiff.
  { unfold authorizeToken. rewrite Hv, Hc, Hexp.
    destruct (Z.gtb_spec (Unix (Now m)) (int64 exp)) as [Hgt|Hle]; split; intros Hok;
      (discriminate || lia || reflexivity). }
  split; [exact Hiff|]. intros Heq. apply Hiff. lia.
Qed.

End MoreValidators.

(** ** The state of the server across requests *)

Section ServerState.

Context {T : CollaboratorTypes} {C : Collaborators T}.

Implicit Types (m : MockOIDC) (rw : ResponseWriter) (req : Request) (s : Session).

Lemma internalServerError_status rw (err : string) :
  Sent rw = None -> status (internalServerError rw err) = Some StatusInternalServerError.
Proof. intros Hs. now apply errorResponse_status. Qed.

Lemma respondTokens_status m rw req s (grantType : string) :
  Sent rw = None ->
  status (respondTokens m rw req s grantType) = Some StatusOK
  \/ status (respondTokens m rw req s grantType) = Some StatusInternalServerError.
Proof.
  intros Hs. unfold respondTokens.
  destruct (setTokens m (newTokenResponse m req) s grantType) as [[tr minted]|err].
  - left. now apply jsonResponse_status.
  - right. now apply internalServerError_status.
Qed.

(** Authorize leaves the server as it was, or answers with an internal
    error or the redirect. *)
Lemma Authorize_server m rw req :
  fst (Authorize m rw req) = m
  \/ (exists err : string, snd (Authorize m rw req) = internalServerError rw err)
  \/ (exists target : string, snd (Authorize m rw req) = Redirect rw req target StatusFound).
Proof.
  unfold Authorize.
  destruct (ParseForm req) as [err|]; [now left|].
  destruct (assertPresence_cases
              ["scope"; "state"; "client_id"; "response_type"; "redirect_uri"] rw req)
    as [[-> _]|(rw1 & -> & _)]; cbn [negb]; [|now left].
  destruct (validateScope_cases rw req) as [->|(rw1 & -> & _)]; cbn [negb]; [|now left].
  destruct (assertEqual_cases "client_id" (ClientID m) InvalidClient "Invalid client id"
              rw req) as [[-> _]|(rw1 & -> & _)]; cbn [negb]; [|now left].
  destruct (assertEqual_cases "response_type" "code" UnsupportedGrantType
              "Invalid response type" rw req) as [[-> _]|(rw1 & -> & _)];
    cbn [negb]; [|now left].
  destruct (Pop (Users m)) as [user queue].
  destruct (NewSession _ _ _ user) as [[s store]|err]; [|right; left; cbn [snd]; eauto].
  destruct (urlParse (Get (Form req) "redirect_uri")) as [u|err]; cbn [snd]; eauto.
Qed.

(** X13. A request that is refused leaves no trace: when Token or
    Authorize answers a fresh writer with status 400 or 401, the
    server (the session store and the user queue with it) is exactly as
    it was before the request. *)
Theorem refused_request_leaves_server m req (code : Z) :
  code = StatusBadRequest \/ code = StatusUnauthorized ->
  (status (snd (Token m freshWriter req)) = Some code ->
   fst (Token m freshWriter req) = m)
  /\ (status (snd (Authorize m freshWriter req)) = Some code ->
      fst (Authorize m freshWriter req) = m).
Proof.
  intros Hcode. split.
  - intros Hst.
    destruct (Token_outcome m freshWriter req) as [rw' _|s _ _ _ _ m'|token s _ _ _ _];
      try reflexivity.
    exfalso.
    destruct (respondTokens_status m' freshWriter req (grant s) "authorization_code"
                eq_refl) as [H|H]; rewrite H in Hst; destruct Hcode; subst; discriminate.
  - intros Hst.
    destruct (Authorize_server m freshWriter req) as [Hm|[(err & Heq)|(target & Heq)]];
      [assumption|exfalso|exfalso]; rewrite Heq in Hst.
    + rewrite internalServerError_status in Hst by reflexivity.
      destruct Hcode; subst; discriminate.
    + rewrite (proj1 (Redirect_sent freshWriter req target StatusFound eq_refl)) in Hst.
      destruct Hcode; subst; discriminate.
Qed.

(** X14. A code is spent even when no token comes of it. For a request
    with the client's credentials and the code of an ungranted
    session: when signing fails in [setTokens], the answer is that
    error as a 500, the session is granted all the same, and every
    later request to redeem the code is answered 401
    [invalid_grant]. *)
Theorem code_spent_when_signing_fails m rw req (code : string) s (err : string) :
  redeems m req code ->
  SessionStore m !! code = Some s -> Granted s = false ->
  let m' := withStore (<[code := grant s]> (SessionStore m)) m in
  setTokens m' (newTokenResponse m' req) (grant s) "authorization_code" = Err err ->
  Token m rw req = (m', internalServerError rw err)
  /\ SessionStore m' !! code = Some (grant s)
  /\ forall rw2 req2,
       redeems m' req2 code ->
       Token m' rw2 req2
       = (m', errorResponse rw2 InvalidGrant ("Invalid code: " +:+ code) StatusUnauthorized).
Proof.
  intros Hreq Hs Hg m' Hset.
  assert (SessionStore m' !! code = Some (grant s)) as Hgranted
    by (subst m'; cbn [SessionStore withStore]; apply lookup_insert_eq).
  split; [|split; [assumption|]].
  - rewrite (Token_redeem m rw req code s Hreq Hs Hg). fold m'.
    unfold respondTokens. now rewrite Hset.
  - intros rw2 req2 Hreq2. apply Token_spent; [assumption|].
    right. exists (grant s). auto.
Qed.

(** X15. The token set of a 200. Every Token request answered 200 on
    an unsent writer has written, after what the writer held, one
    token set whose [token_type] is [bearer] and whose [expires_in] is
    the configured access TTL, for the code grant and the refresh
    grant alike. *)
Theorem token_response_shape m rw req :
  Sent rw = None -> status (snd (Token m rw req)) = Some StatusOK ->
  exists tr : tokenResponse,
    Body (snd (Token m rw req)) = (Body rw ++ [TokenJSON tr])%list
    /\ TokenType tr = "bearer" /\ ExpiresIn tr = AccessTTL m.
Proof.
  intros Hsent Hok.
  destruct (Token_ok_inv m rw req Hsent Hok) as (s & tr & minted & Hset & Hrw & _).
  exists tr. rewrite Hrw.
  destruct (setTokens_ok _ _ s _ tr minted Hset) as (_ & _ & _ & _ & _ & Htype & Hexp).
  split; [|split].
  - now rewrite (proj2 (jsonResponse_sent (noCache rw) (TokenJSON tr) Hsent)).
  - exact Htype.
  - rewrite Hexp. cbn [ExpiresIn newTokenResponse].
    destruct (Token_server m rw req) as [->|(s0 & _ & _ & _ & ->)]; reflexivity.
Qed.

(** X16. From Authorize to Token. When a valid Authorize request has
    been redirected with the code of the session the store created,
    and the store holds that session under its identifier, ungranted
    and with a non-empty identifier, then a Token request with the
    client's credentials and that code is the first redemption: it
    grants the session and answers from it. *)
Theorem authorize_then_redeem m rw req (user : User) (queue : UserQueue) s
    (store : gmap string Session) (redirectURI : URL) rw2 req2 :
  authorizes m req -> Pop (Users m) = (user, queue) ->
  NewSession (SessionStore m) (Get (Form req) "scope") (Get (Form req) "nonce") user
  = Ok (s, store) ->
  urlParse (Get (Form req) "redirect_uri") = Ok redirectURI ->
  store !! SessionID s = Some s -> Granted s = false ->
  let m1 := fst (Authorize m rw req) in
  redeems m1 req2 (SessionID s) ->
  snd (Authorize m rw req)
  = Redirect rw req
      (withCodeAndState redirectURI (SessionID s) (Get (Form req) "state")) StatusFound
  /\ let m2 := withStore (<[SessionID s := grant s]> store) m1 in
     Token m1 rw2 req2 = (m2, respondTokens m2 rw2 req2 (grant s) "authorization_code").
Proof.
  intros Hreq Hpop Hnew Hurl Hheld Hg m1.
  assert (Authorize m rw req
          = (withStore store (withUsers queue m),
             Redirect rw req
               (withCodeAndState redirectURI (SessionID s) (Get (Form req) "state"))
               StatusFound)) as Hauth
    by (now rewrite (Authorize_valid m rw req user queue Hreq Hpop), Hnew, Hurl).
  subst m1. rewrite Hauth. cbn [fst snd]. intros Hredeem. split; [reflexivity|].
  apply (Token_redeem _ rw2 req2 (SessionID s) s Hredeem); assumption.
Qed.

(** Over a step of the Token flow a session stays as it is or becomes
    granted, and no session appears. *)
Lemma Token_only_grants m rw req (id : string) :
  match SessionStore m !! id with
  | None => SessionStore (fst (Token m rw req)) !! id = None
  | Some s =>
      SessionStore (fst (Token m rw req)) !! id = Some s
      \/ SessionStore (fst (Token m rw req)) !! id = Some (grant s)
  end.
Proof.
  destruct (Token_server m rw req) as [->|(s0 & _ & Hs0 & _ & ->)].
  - destruct (SessionStore m !! id); auto.
  - cbn [SessionStore withStore].
    destruct (decide (Get (Form req) "code" = id)) as [<-|Hne].
    + rewrite Hs0, lookup_insert_eq. auto.
    + rewrite lookup_insert_ne by assumption. destruct (SessionStore m !! id); auto.
Qed.

Lemma grant_grant s : grant (grant s) = grant s.
Proof. reflexivity. Qed.

(** X17. However many Token requests are handled, at whatever times,
    the store holds the same sessions under the same identifiers: each
    one is as it was or differs only by [Granted] having become true,
    and no session was added or removed. The client id and secret,
    the access TTL, the user queue and the key pair are as they were. *)
Theorem Token_runs_only_grant (reqs : list (Time * Request)) m (id : string) :
  match SessionStore m !! id with
  | None => SessionStore (TokenRun reqs m) !! id = None
  | Some s =>
      SessionStore (TokenRun reqs m) !! id = Some s
      \/ SessionStore (TokenRun reqs m) !! id = Some (grant s)
  end
  /\ ClientID (TokenRun reqs m) = ClientID m
  /\ ClientSecret (TokenRun reqs m) = ClientSecret m
  /\ AccessTTL (TokenRun reqs m) = AccessTTL m
  /\ Users (TokenRun reqs m) = Users m
  /\ Keys (TokenRun reqs m) = Keys m.
Proof.
  revert m. induction reqs as [|[t req] reqs IH]; intros m; simpl.
  - split; [destruct (SessionStore m !! id); auto|auto].
  - destruct (IH (fst (Token (withNow t m) freshWriter req)))
      as (Hstore & -> & -> & -> & -> & ->).
    split.
    + pose proof (Token_only_grants (withNow t m) freshWriter req id) as Hstep.
      cbn [SessionStore withNow] in Hstep.
      destruct (SessionStore m !! id) as [s|].
      * destruct Hstep as [Hstep|Hstep]; rewrite Hstep in Hstore.
        -- exact Hstore.
        -- rewrite grant_grant in Hstore. right. destruct Hstore; assumption.
      * now rewrite Hstep in Hstore.
    + destruct (Token_server (withNow t m) freshWriter req)
        as [->|(s0 & _ & _ & _ & ->)]; auto.
Qed.

(** X18. Discovery and the scope check agree. A scope parameter made
    of scopes that the discovery document lists under
    [scopes_supported], one or more, joined by single spaces, passes
    the scope check; a parameter made of space-free scopes of which
    one is not listed fails it. *)
Theorem advertised_scopes_accepted m (req0 : Request) (d : discoveryResponse)
    rw req (scopes : list string) :
  Body (snd (Discovery m freshWriter req0)) = [DiscoveryJSON d] ->
  Get (Form req) "scope" = Join scopes ->
  scopes <> [] -> Forall spaceless scopes ->
  (Forall (fun scope => In scope (dScopesSupported d)) scopes ->
   validateScope rw req = (true, rw))
  /\ (Exists (fun scope => ~ In scope (dScopesSupported d)) scopes ->
      fst (validateScope rw req) = false).
Proof.
  intros Hd Hscope Hne Hspaceless.
  assert (dScopesSupported d = ScopesSupported) as -> by (now injection Hd as <-).
  assert (Split (Get (Form req) "scope") = scopes) as Hsplit
    by (rewrite Hscope; now apply Split_Join).
  split.
  - intros Hall. apply validateScope_supported. now rewrite Hsplit.
  - intros Hex. apply List.Exists_exists in Hex. destruct Hex as (bad & Hin & Hbad).
    apply (validateScope_rejects rw req bad); [now rewrite Hsplit|exact Hbad].
Qed.

End ServerState.

(** ** Token assembly *)

Section Assembly.

Context {T : CollaboratorTypes} {C : Collaborators T}.

Implicit Types (m : MockOIDC) (rw : ResponseWriter) (req : Request) (s : Session).

(** X19. [setTokens] asks only for the tokens it puts in the response,
    in the order access, ID, refresh, and fails with the first error:
    the access token's; else, only for a session whose scopes start
    with [openid], the ID token's; else, only when the grant type is
    not [refresh_token], the refresh token's. So a refresh grant never
    depends on the signing of refresh tokens, and a session without
    [openid] in first place never on the signing of ID tokens. *)
Theorem setTokens_fails_with_first_error m (tr0 : tokenResponse) s (grantType err : string) :
  setTokens m tr0 s grantType = Err err
  <-> SessionAccessToken s (ConfigOf m) (Keys m) (Now m) = Err err
      \/ (exists access : string,
            SessionAccessToken s (ConfigOf m) (Keys m) (Now m) = Ok access)
         /\ (openidFirst (Scopes s)
             /\ SessionIDToken s (ConfigOf m) (Keys m) (Now m) = Err err
             \/ (openidFirst (Scopes s) ->
                 exists idToken : string,
                   SessionIDToken s (ConfigOf m) (Keys m) (Now m) = Ok idToken)
                /\ grantType <> "refresh_token"
                /\ SessionRefreshToken s (ConfigOf m) (Keys m) (Now m) = Err err).
Proof.
  assert (grantType <> "refresh_token" ->
          negb (String.eqb grantType "refresh_token") = true) as Hneq
    by (intros Hne; now destruct (String.eqb_spec grantType "refresh_token")).
  split.
  - unfold setTokens.
    destruct (SessionAccessToken s (ConfigOf m) (Keys m) (Now m)) as [access|e0];
      [|intros [= ->]; now left].
    intros Hset. right. split; [eauto|].
    destruct (Scopes s) as [|first rest] eqn:Hsc.
    + right. split; [intros Ho; now destruct openidFirst_nil|].
      destruct (String.eqb_spec grantType "refresh_token"); cbn [negb] in Hset;
        [discriminate|].
      destruct (SessionRefreshToken s (ConfigOf m) (Keys m) (Now m)); [discriminate|].
      injection Hset as ->. auto.
    + unfold openidScope in Hset. rewrite openidFirst_cons.
      destruct (String.eqb_spec first "openid") as [Hf|Hf].
      * destruct (SessionIDToken s (ConfigOf m) (Keys m) (Now m)) as [idToken|e1];
          [|injection Hset as ->; left; auto].
        right. split; [eauto|].
        destruct (String.eqb_spec grantType "refresh_token"); cbn [negb] in Hset;
          [discriminate|].
        destruct (SessionRefreshToken s (ConfigOf m) (Keys m) (Now m)); [discriminate|].
        injection Hset as ->. auto.
      * right. split; [intros Ho; contradiction|].
        destruct (String.eqb_spec grantType "refresh_token"); cbn [negb] in Hset;
          [discriminate|].
        destruct (SessionRefreshToken s (ConfigOf m) (Keys m) (Now m)); [discriminate|].
        injection Hset as ->. auto.
  - unfold setTokens.
    intros [Ha|[(access & Ha) [[(rest & Hsc) Hid]|(Hid & Hne & Hr)]]]; rewrite Ha.
    + reflexivity.
    + rewrite Hsc. cbn [openidScope String.eqb Ascii.eqb Bool.eqb]. now rewrite Hid.
    + destruct (Scopes s) as [|first rest] eqn:Hsc.
      * rewrite (Hneq Hne), Hr. reflexivity.
      * unfold openidScope. destruct (String.eqb_spec first "openid") as [->|Hf].
        -- destruct Hid as (idToken & ->); [now exists rest|].
           rewrite (Hneq Hne), Hr. reflexivity.
        -- rewrite (Hneq Hne), Hr. reflexivity.
Qed.

End Assembly.

(** * The further properties on the concrete server *)

Module MoreChecks.

Import Demo.

(** The collaborators of [Demo] with a key pair that cannot sign access
    tokens. *)
Definition failingSign (s : Session) (c k : unit) (now : Z) : Result string :=
  Err "no private key".

Definition failing : Collaborators types := {|
  Unix := id (A := Z);
  int64Overflow := fun _ => minInt64;
  GetSessionByToken := byToken;
  NewSession := newSession;
  Pop := pop;
  UserUserinfo := fun (u : string) _ => Ok u;
  VerifyJWT := verify;
  KeypairJWKS := fun _ : unit => Ok "jwks";
  SessionAccessToken := failingSign;
  SessionIDToken := sign "id";
  SessionRefreshToken := sign "refresh";
  urlParse := parseURL;
  withCodeAndState := target;
  location := fun _ url => url;
  ConfigOf := fun _ => tt;
  Issuer := fun _ => "http://127.0.0.1:8080/oidc"
|}.

(** The session Authorize creates for [alice], and the store with it. *)
Definition alice (scopes : list string) : Session :=
  {| SessionID := "code-alice"; Scopes := scopes; OIDCNonce := "";
     SessionUser := "alice"; Granted := false |}.

Definition authorizeWith (client responseType redirect : string) : Request :=
  get [("scope", "openid"); ("state", "abc"); ("client_id", client);
       ("response_type", responseType); ("redirect_uri", redirect)].

Lemma openid_supported : Forall supported ["openid"].
Proof. constructor; [left; reflexivity|constructor]. Defined.

Lemma authorizeWith_present (client responseType redirect : string) :
  client <> "" -> responseType <> "" -> redirect <> "" ->
  Forall (present (authorizeWith client responseType redirect))
    ["scope"; "state"; "client_id"; "response_type"; "redirect_uri"].
Proof.
  intros Hc Ht Hr. repeat constructor; unfold present; simpl; (assumption || discriminate).
Defined.

Lemma authorizes_demo (redirect : string) :
  redirect <> "" -> authorizes (server ∅) (authorizeWith "cid" "code" redirect).
Proof.
  intros Hr. split; [reflexivity|]. split; [apply authorizeWith_present; (assumption || discriminate)|].
  split; [apply openid_supported|]. split; reflexivity.
Defined.

Lemma Authorize_rejects_client_and_response_type_witness :
  let req := authorizeWith "wrong" "code" "https://app/cb" in
  Get (Form req) "client_id" <> ClientID (server ∅)
  /\ Authorize (server ∅) freshWriter req
     = (server ∅,
        errorResponse freshWriter InvalidClient "Invalid client id: wrong" StatusUnauthorized).
Proof.
  intros req.
  assert (Get (Form req) "client_id" <> ClientID (server ∅)) as Hne by discriminate.
  split; [exact Hne|].
  apply (proj1 (Authorize_rejects_client_and_response_type (server ∅) freshWriter req
                  eq_refl
                  (authorizeWith_present "wrong" "code" "https://app/cb"
                     ltac:(discriminate) ltac:(discriminate) ltac:(discriminate))
                  openid_supported)).
  exact Hne.
Defined.

Lemma Authorize_redirects_with_code_witness :
  let m := server ∅ in
  let req := authorizeWith "cid" "code" "https://app/cb" in
  authorizes m req
  /\ fst (Authorize m freshWriter req)
     = withStore (<["code-alice" := alice ["openid"]]> ∅) (withUsers [] m)
  /\ status (snd (Authorize m freshWriter req)) = Some StatusFound
  /\ sentHeader (snd (Authorize m freshWriter req)) "Location"
     = Some "https://app/cb?code=code-alice&state=abc".
Proof.
  intros m req.
  assert (authorizes m req) as Hreq by (apply authorizes_demo; discriminate).
  assert (Pop (Users m) = ("alice", [])) as Hpop by reflexivity.
  assert (NewSession (SessionStore m) (Get (Form req) "scope") (Get (Form req) "nonce")
            "alice" = Ok (alice ["openid"], <["code-alice" := alice ["openid"]]> ∅))
    as Hnew by reflexivity.
  assert (urlParse (Get (Form req) "redirect_uri") = Ok "https://app/cb") as Hurl
    by reflexivity.
  split; [exact Hreq|].
  exact (Authorize_redirects_with_code m req "alice" [] _ _ _ Hreq Hpop Hnew Hurl).
Defined.

Lemma Authorize_internal_error_keeps_effects_witness :
  let m := server ∅ in
  let req := authorizeWith "cid" "code" ":bad" in
  authorizes m req
  /\ Authorize m freshWriter req
     = (withStore (<["code-alice" := alice ["openid"]]> ∅) (withUsers [] m),
        internalServerError freshWriter "missing protocol scheme").
Proof.
  intros m req.
  assert (authorizes m req) as Hreq by (apply authorizes_demo; discriminate).
  assert (Pop (Users m) = ("alice", [])) as Hpop by reflexivity.
  assert (NewSession (SessionStore m) (Get (Form req) "scope") (Get (Form req) "nonce")
            "alice" = Ok (alice ["openid"], <["code-alice" := alice ["openid"]]> ∅))
    as Hnew by reflexivity.
  assert (urlParse (Get (Form req) "redirect_uri") = Err "missing protocol scheme") as Hurl
    by reflexivity.
  split; [exact Hreq|].
  exact (proj2 (Authorize_internal_error_keeps_effects m freshWriter req "alice" []
                  Hreq Hpop) _ _ _ Hnew Hurl).
Defined.

Definition wrongClient : Request :=
  post [("client_id", "wrong"); ("client_secret", "secret");
        ("grant_type", "authorization_code"); ("code", "c1")].

Lemma wrongClient_present :
  Forall (present wrongClient) ["client_id"; "client_secret"; "grant_type"].
Proof. repeat constructor; discriminate. Defined.

Lemma Token_rejects_wrong_client_witness :
  Get (Form wrongClient) "client_id" <> ClientID (server ∅)
  /\ Token (server ∅) freshWriter wrongClient
     = (server ∅,
        errorResponse freshWriter InvalidClient "Invalid client id: wrong" StatusUnauthorized).
Proof.
  assert (Get (Form wrongClient) "client_id" <> ClientID (server ∅)) as Hne by discriminate.
  split; [exact Hne|].
  exact (proj1 (Token_rejects_wrong_client (server ∅) freshWriter wrongClient eq_refl
                  wrongClient_present) Hne).
Defined.

Lemma refreshes_demo (t : string) :
  t <> "" -> refreshes (server {[ "c1" := fresh ]}) (refreshRequest t) t.
Proof.
  intros Ht. repeat split; try reflexivity; (assumption || discriminate).
Defined.

Lemma refresh_grant_rejections_witness :
  let m := server {[ "c1" := fresh ]} in
  refreshes m (refreshRequest "forged.c1") "forged.c1"
  /\ Token m freshWriter (refreshRequest "forged.c1")
     = (m, errorResponse freshWriter InvalidRequest "Invalid token: signature is invalid"
             StatusUnauthorized).
Proof.
  intros m.
  assert (refreshes m (refreshRequest "forged.c1") "forged.c1") as Hreq
    by (apply refreshes_demo; discriminate).
  assert (VerifyJWT (Keys m) "forged.c1" = Err "signature is invalid") as Hv by reflexivity.
  split; [exact Hreq|].
  exact (proj1 (refresh_grant_rejections m freshWriter (refreshRequest "forged.c1")
                  "forged.c1" Hreq) _ Hv).
Defined.

Lemma unexpired_access (store : gmap string Session) :
  unexpired (server store) "access.c1" (claimsOf (Some (VFloat64 f1600)) "c1").
Proof.
  split; [reflexivity|].
  exists (<["exp" := VFloat64 f1600]> {[ "jti" := VString "c1" ]}), f1600.
  split; [reflexivity|]. split; [reflexivity|]. vm_compute. discriminate.
Defined.

Lemma Userinfo_answers_witness :
  let m := server {[ "c1" := fresh ]} in
  (Get (Header (bearer "access.c1")) "Authorization" = "Bearer access.c1"
   /\ Granted fresh = false)
  /\ Userinfo m freshWriter (bearer "access.c1")
     = (m, jsonResponse freshWriter (RawJSON "alice")).
Proof.
  intros m.
  assert (Get (Header (bearer "access.c1")) "Authorization" = "Bearer " +:+ "access.c1")
    as Hh by reflexivity.
  assert (GetSessionByToken (SessionStore m) (claimsOf (Some (VFloat64 f1600)) "c1")
          = Ok fresh) as Hs by reflexivity.
  assert (UserUserinfo (SessionUser fresh) (Scopes fresh) = Ok "alice") as Hinfo
    by reflexivity.
  split; [split; [exact Hh|reflexivity]|].
  exact (proj1 (Userinfo_answers m freshWriter (bearer "access.c1") "access.c1" _
                  Hh (unexpired_access _)) fresh "alice" Hs Hinfo).
Defined.

Lemma scope_stray_space_rejected_witness :
  let req := authorizeRequest "openid " "abc" in
  Get (Form req) "scope" = "openid" +:+ " "
  /\ fst (validateScope freshWriter req) = false.
Proof.
  intros req.
  assert (Get (Form req) "scope" = "openid" +:+ " ") as Hscope by reflexivity.
  split; [exact Hscope|].
  apply (scope_stray_space_rejected freshWriter req).
  right. right. left. exists "openid". exact Hscope.
Defined.

Definition lowerCase : Request :=
  {| Method := "GET"; Header := form [("Authorization", "bearer access.c1")];
     Form := ∅; ParseForm := None |}.

Lemma bearer_header_format_witness :
  Get (Header lowerCase) "Authorization" = "bearer access.c1"
  /\ authorizeBearer (server ∅) freshWriter lowerCase
     = (None,
        errorResponse freshWriter InvalidRequest "Invalid authorization header"
          StatusUnauthorized).
Proof.
  split; [reflexivity|].
  apply (bearer_header_format (server ∅) freshWriter lowerCase).
  intros t Heq. discriminate Heq.
Defined.

Lemma token_accepted_until_exp_witness :
  let m := withNow 1600 (server ∅) in
  Unix (Now m) = int64 f1600
  /\ authorizeToken m "access.c1" freshWriter
     = (Some (claimsOf (Some (VFloat64 f1600)) "c1"), freshWriter).
Proof.
  intros m.
  assert (VerifyJWT (Keys m) "access.c1" = Ok (claimsOf (Some (VFloat64 f1600)) "c1"))
    as Hv by reflexivity.
  assert (TokenClaims (claimsOf (Some (VFloat64 f1600)) "c1")
          = MapClaims (<["exp" := VFloat64 f1600]> {[ "jti" := VString "c1" ]})) as Hc
    by reflexivity.
  assert ((<["exp" := VFloat64 f1600]> {[ "jti" := VString "c1" ]} : gmap string ClaimValue)
            !! "exp" = Some (VFloat64 f1600)) as Hexp by reflexivity.
  assert (Unix (Now m) = int64 f1600) as Hnow by reflexivity.
  split; [exact Hnow|].
  exact (proj2 (token_accepted_until_exp m "access.c1" freshWriter _ _ f1600 Hv Hc Hexp)
           Hnow).
Defined.

Lemma refused_request_leaves_server_witness :
  status (snd (Token (server {[ "c1" := fresh ]}) freshWriter wrongClient))
  = Some StatusUnauthorized
  /\ fst (Token (server {[ "c1" := fresh ]}) freshWriter wrongClient)
     = server {[ "c1" := fresh ]}.
Proof.
  assert (status (snd (Token (server {[ "c1" := fresh ]}) freshWriter wrongClient))
          = Some StatusUnauthorized) as Hst by reflexivity.
  split; [exact Hst|].
  exact (proj1 (refused_request_leaves_server (server {[ "c1" := fresh ]}) wrongClient
                  StatusUnauthorized (or_intror eq_refl)) Hst).
Defined.

Lemma code_spent_when_signing_fails_witness :
  let m := server {[ "c1" := fresh ]} in
  let m' := withStore (<["c1" := grant fresh]> (SessionStore m)) m in
  (redeems m (codeRequest "c1") "c1" /\ Granted fresh = false)
  /\ Token (C := failing) m freshWriter (codeRequest "c1")
     = (m', internalServerError freshWriter "no private key")
  /\ Token (C := failing) m' freshWriter (codeRequest "c1")
     = (m', errorResponse freshWriter InvalidGrant "Invalid code: c1" StatusUnauthorized).
Proof.
  intros m m'.
  assert (redeems m (codeRequest "c1") "c1") as Hreq
    by (repeat split; try reflexivity; discriminate).
  assert (redeems m' (codeRequest "c1") "c1") as Hreq'
    by (repeat split; try reflexivity; discriminate).
  assert (SessionStore m !! "c1" = Some fresh) as Hs by reflexivity.
  assert (setTokens (C := failing) m' (newTokenResponse m' (codeRequest "c1")) (grant fresh)
            "authorization_code" = Err "no private key") as Hset by reflexivity.
  split; [split; [exact Hreq|reflexivity]|].
  destruct (code_spent_when_signing_fails (C := failing) m freshWriter (codeRequest "c1")
              "c1" fresh "no private key" Hreq Hs eq_refl Hset) as (Hfirst & _ & Hlater).
  split; [exact Hfirst|]. exact (Hlater freshWriter (codeRequest "c1") Hreq').
Defined.

Lemma token_response_shape_witness :
  let m := server {[ "c1" := fresh ]} in
  status (snd (Token m freshWriter (codeRequest "c1"))) = Some StatusOK
  /\ exists tr : tokenResponse,
       Body (snd (Token m freshWriter (codeRequest "c1"))) = [TokenJSON tr]
       /\ TokenType tr = "bearer" /\ ExpiresIn tr = 600.
Proof.
  intros m.
  assert (status (snd (Token m freshWriter (codeRequest "c1"))) = Some StatusOK) as Hok
    by reflexivity.
  split; [exact Hok|].
  exact (token_response_shape m freshWriter (codeRequest "c1") eq_refl Hok).
Defined.

Lemma authorize_then_redeem_witness :
  let m := server ∅ in
  let req := authorizeWith "cid" "code" "https://app/cb" in
  let m1 := fst (Authorize m freshWriter req) in
  let m2 := withStore (<["code-alice" := grant (alice ["openid"])]>
                         (<["code-alice" := alice ["openid"]]> ∅)) m1 in
  (authorizes m req /\ redeems m1 (codeRequest "code-alice") "code-alice")
  /\ Token m1 freshWriter (codeRequest "code-alice")
     = (m2, respondTokens m2 freshWriter (codeRequest "code-alice")
              (grant (alice ["openid"])) "authorization_code").
Proof.
  intros m req m1 m2.
  assert (authorizes m req) as Hreq by (apply authorizes_demo; discriminate).
  assert (Pop (Users m) = ("alice", [])) as Hpop by reflexivity.
  assert (NewSession (SessionStore m) (Get (Form req) "scope") (Get (Form req) "nonce")
            "alice" = Ok (alice ["openid"], <["code-alice" := alice ["openid"]]> ∅))
    as Hnew by reflexivity.
  assert (urlParse (Get (Form req) "redirect_uri") = Ok "https://app/cb") as Hurl
    by reflexivity.
  assert ((<["code-alice" := alice ["openid"]]> ∅ : gmap string Session)
            !! SessionID (alice ["openid"]) = Some (alice ["openid"])) as Hheld
    by reflexivity.
  assert (redeems m1 (codeRequest "code-alice") "code-alice") as Hredeem
    by (repeat split; try reflexivity; discriminate).
  split; [split; assumption|].
  exact (proj2 (authorize_then_redeem m freshWriter req "alice" [] _ _ _ freshWriter
                  (codeRequest "code-alice") Hreq Hpop Hnew Hurl Hheld eq_refl Hredeem)).
Defined.

Lemma spaceless_openid_email : Forall spaceless ["openid"; "email"].
Proof. repeat constructor; intros Heq; discriminate Heq. Defined.

Lemma advertised_scopes_accepted_witness :
  let req := authorizeRequest "openid email" "abc" in
  Get (Form req) "scope" = Join ["openid"; "email"]
  /\ validateScope freshWriter req = (true, freshWriter).
Proof.
  intros req.
  assert (Get (Form req) "scope" = Join ["openid"; "email"]) as Hscope by reflexivity.
  split; [exact Hscope|].
  refine (proj1 (advertised_scopes_accepted (server ∅) req _ freshWriter req
                   ["openid"; "email"] eq_refl Hscope ltac:(discriminate)
                   spaceless_openid_email) _).
  constructor; [left; reflexivity|].
  constructor; [right; left; reflexivity|constructor].
Defined.

End MoreChecks.
